(** * Eolie: the web view's navigation policy, load life cycle and TLS override

    A shallow embedding of [src/view_web.py] (class [WebView]).  The private
    attributes of the Python object become the record [WebView]; every call
    into the engine or the toolkit (WebKit2, GLib, Gio) that the handlers make
    is recorded, in order, as an [Effect]; what the handlers read from the
    outside world (settings, the ad-block exception registry, the network
    monitor, the page URI and title) is the record [Env].  Handlers are written
    in a small state/exception/log monad so that they read like the Python.

    Strings are byte strings ([string]); integers are [Z] or [N]; the zoom
    factors, which are Python floats, are idealised as rationals ([Q]).

    Modelled: [load_uri], [set_popup_exception], [set_setting],
    [update_zoom_level], [__init], [__check_for_network],
    [__set_system_fonts], and the handlers of insecure content, the accept
    scheme, URI and title changes, load changes, load failures, TLS failures
    and policy decisions.  Left out: printing, the clipboard, scroll and form
    handlers, permission requests, downloads and the populars and internal
    schemes; none of them assigns an attribute kept in [WebView]. *)

From Stdlib Require Import String Ascii ZArith QArith List Bool Lia.
From stdpp Require Import base option gmap strings list.

Open Scope string_scope.

(** ** Python string operations used by the view *)

Module PyStr.

(** [c in s] for a one-character [c]. *)
Fixpoint contains (c : ascii) (s : string) : bool :=
  match s with
  | EmptyString => false
  | String a s' => Ascii.eqb a c || contains c s'
  end.

(** [s.split(c, 1)] when [c in s]: the text before the first [c] and the
    text after it; [None] when [c] does not occur ([s.find(c) == -1]). *)
Fixpoint partition_at (c : ascii) (s : string) : option (string * string) :=
  match s with
  | EmptyString => None
  | String a s' =>
      if Ascii.eqb a c then Some (EmptyString, s')
      else match partition_at c s' with
           | Some (l, r) => Some (String a l, r)
           | None => None
           end
  end.

(** [(s[:i], s[i:])] where [i] is the index of the first character that
    satisfies [p], or [len(s)] when there is none. *)
Fixpoint break_at (p : ascii -> bool) (s : string) : string * string :=
  match s with
  | EmptyString => (EmptyString, EmptyString)
  | String a s' =>
      if p a then (EmptyString, s)
      else let '(l, r) := break_at p s' in (String a l, r)
  end.

(** [(s[:j+1], s[j+1:])] for [j = s.rfind("/")]; the first component is
    empty when there is no slash. *)
Fixpoint rbreak_slash (s : string) : string * string :=
  match s with
  | EmptyString => (EmptyString, EmptyString)
  | String a s' =>
      if contains "/" s' then
        let '(h, t) := rbreak_slash s' in (String a h, t)
      else if Ascii.eqb a "/" then (String a EmptyString, s')
      else (EmptyString, s)
  end.

Fixpoint forall_chars (p : ascii -> bool) (s : string) : bool :=
  match s with
  | EmptyString => true
  | String a s' => p a && forall_chars p s'
  end.

Definition is_upper (c : ascii) : bool :=
  (65 <=? nat_of_ascii c)%nat && (nat_of_ascii c <=? 90)%nat.
Definition is_lower (c : ascii) : bool :=
  (97 <=? nat_of_ascii c)%nat && (nat_of_ascii c <=? 122)%nat.
Definition is_digit (c : ascii) : bool :=
  (48 <=? nat_of_ascii c)%nat && (nat_of_ascii c <=? 57)%nat.

Definition lower_char (c : ascii) : ascii :=
  if is_upper c then ascii_of_nat (nat_of_ascii c + 32) else c.

(** [s.lower()] on ASCII text. *)
Fixpoint lower (s : string) : string :=
  match s with
  | EmptyString => EmptyString
  | String a s' => String (lower_char a) (lower s')
  end.

(** [s.replace(old, new)] for a non-empty [old]: every occurrence found
    scanning left to right is replaced, and the scan resumes after it.
    [skip] counts the characters of a replaced occurrence still to drop. *)
Fixpoint replace_from (old new : string) (skip : nat) (s : string) : string :=
  match s with
  | EmptyString => EmptyString
  | String a s' =>
      match skip with
      | S k => replace_from old new k s'
      | O =>
          if String.prefix old s
          then new ++ replace_from old new (String.length old - 1) s'
          else String a (replace_from old new 0 s')
      end
  end.

Definition replace (old new s : string) : string := replace_from old new 0 s.

(** [s.split(".")] *)
Fixpoint split_dot (s : string) : list string :=
  match s with
  | EmptyString => [EmptyString]
  | String a s' =>
      if Ascii.eqb a "."
      then EmptyString :: split_dot s'
      else match split_dot s' with
           | w :: ws => String a w :: ws
           | [] => [String a EmptyString]
           end
  end.

(** [".".join(l)] *)
Fixpoint join_dot (l : list string) : string :=
  match l with
  | [] => EmptyString
  | [w] => w
  | w :: ws => w ++ "." ++ join_dot ws
  end.

(** [l[:-1]] *)
Definition but_last {A} (l : list A) : list A := removelast l.

(** [pat in s] for a non-empty [pat]. *)
Fixpoint occurs (pat s : string) : bool :=
  String.prefix pat s
  || match s with
     | EmptyString => false
     | String _ s' => occurs pat s'
     end.

(** [s in l] for a list of strings. *)
Definition in_list (s : string) (l : list string) : bool :=
  existsb (String.eqb s) l.

End PyStr.

(** ** [urllib.parse.urlparse]

    The standard library's URL parser is not part of the repository; it is
    modelled after its CPython 3.6 source (the interpreter generation this
    code was written for), for [str] arguments and the default
    [scheme=''], [allow_fragments=True].  The parse cache is transparent and
    is left out.  [None] stands for the [ValueError] raised on a netloc with
    an unmatched square bracket. *)

Module UrlParse.
Import PyStr.

Record ParseResult := {
  scheme : string;
  netloc : string;
  path : string;
  params : string;
  query : string;
  fragment : string
}.

Definition scheme_chars (c : ascii) : bool :=
  is_lower c || is_upper c || is_digit c
  || Ascii.eqb c "+" || Ascii.eqb c "-" || Ascii.eqb c ".".

Definition uses_params : list string :=
  ["ftp"; "hdl"; "prospero"; "http"; "imap"; "https"; "shttp"; "rtsp";
   "rtspu"; "sip"; "sips"; "mms"; ""; "sftp"; "tel"].

(** The scheme prefix: [(scheme, rest)].  A prefix is a scheme when it is
    non-empty, made of [scheme_chars], and what follows the colon is not a
    port number; ["http"] is taken on the fast path without the port test. *)
Definition split_scheme (url : string) : string * string :=
  match partition_at ":" url with
  | Some (String a pre, rest) =>
      let pre := String a pre in
      if String.eqb pre "http" then (lower pre, rest)
      else if forall_chars scheme_chars pre
              && (String.eqb rest "" || negb (forall_chars is_digit rest))
           then (lower pre, rest)
           else ("", url)
  | _ => ("", url)
  end.

Definition is_delim (c : ascii) : bool :=
  Ascii.eqb c "/" || Ascii.eqb c "?" || Ascii.eqb c "#".

(** [_splitnetloc(url, 2)] after a leading ["//"], with the bracket test. *)
Definition split_netloc (url : string) : option (string * string) :=
  match url with
  | String "/" (String "/" rest) =>
      let '(nl, url') := break_at is_delim rest in
      if (contains "[" nl && negb (contains "]" nl))
         || (contains "]" nl && negb (contains "[" nl))
      then None
      else Some (nl, url')
  | _ => Some ("", url)
  end.

Definition split_on (c : ascii) (url : string) : string * string :=
  match partition_at c url with
  | Some (l, r) => (l, r)
  | None => (url, "")
  end.

(** [_splitparams] *)
Definition splitparams (url : string) : string * string :=
  if contains "/" url then
    let '(h, t) := rbreak_slash url in
    match partition_at ";" t with
    | Some (l, r) => (h ++ l, r)
    | None => (url, "")
    end
  else split_on ";" url.

Definition urlparse (url : string) : option ParseResult :=
  let '(sch, url1) := split_scheme url in
  match split_netloc url1 with
  | None => None
  | Some (nl, url2) =>
      let '(url3, frag) := split_on "#" url2 in
      let '(url4, qry) := split_on "?" url3 in
      let '(url5, prm) :=
        if in_list sch uses_params && contains ";" url4
        then splitparams url4 else (url4, "") in
      Some {| scheme := sch; netloc := nl; path := url5;
              params := prm; query := qry; fragment := frag |}
  end.

End UrlParse.

Import UrlParse.

(** ** Data of the engine and the toolkit *)

(** [WebKit2.PolicyDecisionType] *)
Inductive PolicyDecisionType := NAVIGATION_ACTION | NEW_WINDOW_ACTION | RESPONSE.

(** [WebKit2.NavigationType] *)
Inductive NavigationType :=
  LINK_CLICKED | FORM_SUBMITTED | BACK_FORWARD | RELOAD | FORM_RESUBMITTED | OTHER.

(** [WebKit2.LoadEvent] *)
Inductive LoadEvent := STARTED | REDIRECTED | COMMITTED | FINISHED.

(** [Gio.TlsCertificateFlags], a bit field. *)
Module TlsCertificateFlags.
Definition UNKNOWN_CA : Z := 1.
Definition BAD_IDENTITY : Z := 2.
Definition NOT_ACTIVATED : Z := 4.
Definition EXPIRED : Z := 8.
Definition REVOKED : Z := 16.
Definition INSECURE : Z := 32.
Definition GENERIC_ERROR : Z := 64.
End TlsCertificateFlags.

(** A [Gio.TlsCertificate], identified by its encoding. *)
Inductive Certificate := Cert (pem : string).

(** What the policy handler reads from the decision object: the MIME type of
    [decision.get_response()] and, from [decision.get_navigation_action()],
    the request URI, the mouse button and the navigation type.  Which getters
    are meaningful depends on the decision type the engine passes along. *)
Record PolicyDecision := {
  response_mime_type : string;
  request_uri : string;
  mouse_button : N;
  navigation_type : NavigationType
}.

(** Python exceptions the modelled code can raise. *)
Inductive Exn := ValueError | AttributeError | UnboundLocalError.

(** Signals of the view ([gsignals]). *)
Inductive Signal :=
| Readable
| TitleChanged (title : string)
| NewPage (uri : string) (popup : bool)
| SavePassword (username password netloc : string).

(** Callbacks handed to [GLib.timeout_add]. *)
Inductive Callback :=
| CheckForNetwork (uri : string)
| JavascriptFromGResource (resource : string).

Inductive LogArg := LogExn (e : Exn) | LogInt (z : Z) | LogNum (q : Q).

(** Calls into the engine and the toolkit, in the order they are made. *)
Inductive Effect :=
| CancellableCancel
| CancellableReset
| LoadPlainText (text : string)
| WebKitLoadUri (uri : string)
| LoadHtml (template : string) (args : list string)
| SpawnSync (argv : list string)
| RunJavascript (script : string)
| RunJavascriptFromGResource (resource : string)
| Emit (s : Signal)
| AllowTlsCertificateForHost (c : Certificate) (host : string)
| DecisionUse
| DecisionDownload
| DecisionIgnore
| Print (tag : string) (arg : LogArg)
| Debug (tag : string) (arg : LogArg)
| FileDelete (file : string)
| TimeoutAdd (interval : N) (cb : Callback).

(** Values of [WebKit2.Settings] properties. *)
Inductive Value := VBool (b : bool) | VStr (s : string) | VInt (z : Z).

(** The view a related view was created from, as far as [update_zoom_level]
    looks at it: the zoom level of its ancestor window, if it has one. *)
Record RelatedView := { related_window_zoom_level : option Q }.

(** ** The view's state

    The private attributes set in [__init] that the modelled methods use,
    followed by the two engine properties the view writes: its settings and
    its zoom level.  [insecure_content_detected] is [None] until a method
    assigns it: [__init] does not. *)
Record WebView := {
  related_view : option RelatedView;
  popup_exception : option string;
  readable_content : string;
  js_timeout : option N;
  loaded_uri : string;
  title : string;
  bad_tls : option Certificate;
  insecure_content_detected : option bool;
  settings : gmap string Value;
  zoom_level : Q
}.

Definition set_popup_exception_field (v : option string) (w : WebView) : WebView :=
  {| related_view := related_view w; popup_exception := v;
     readable_content := readable_content w; js_timeout := js_timeout w;
     loaded_uri := loaded_uri w; title := title w; bad_tls := bad_tls w;
     insecure_content_detected := insecure_content_detected w;
     settings := settings w; zoom_level := zoom_level w |}.

Definition set_readable_content (v : string) (w : WebView) : WebView :=
  {| related_view := related_view w; popup_exception := popup_exception w;
     readable_content := v; js_timeout := js_timeout w;
     loaded_uri := loaded_uri w; title := title w; bad_tls := bad_tls w;
     insecure_content_detected := insecure_content_detected w;
     settings := settings w; zoom_level := zoom_level w |}.

Definition set_js_timeout (v : option N) (w : WebView) : WebView :=
  {| related_view := related_view w; popup_exception := popup_exception w;
     readable_content := readable_content w; js_timeout := v;
     loaded_uri := loaded_uri w; title := title w; bad_tls := bad_tls w;
     insecure_content_detected := insecure_content_detected w;
     settings := settings w; zoom_level := zoom_level w |}.

Definition set_loaded_uri (v : string) (w : WebView) : WebView :=
  {| related_view := related_view w; popup_exception := popup_exception w;
     readable_content := readable_content w; js_timeout := js_timeout w;
     loaded_uri := v; title := title w; bad_tls := bad_tls w;
     insecure_content_detected := insecure_content_detected w;
     settings := settings w; zoom_level := zoom_level w |}.

Definition set_title (v : string) (w : WebView) : WebView :=
  {| related_view := related_view w; popup_exception := popup_exception w;
     readable_content := readable_content w; js_timeout := js_timeout w;
     loaded_uri := loaded_uri w; title := v; bad_tls := bad_tls w;
     insecure_content_detected := insecure_content_detected w;
     settings := settings w; zoom_level := zoom_level w |}.

Definition set_bad_tls (v : option Certificate) (w : WebView) : WebView :=
  {| related_view := related_view w; popup_exception := popup_exception w;
     readable_content := readable_content w; js_timeout := js_timeout w;
     loaded_uri := loaded_uri w; title := title w; bad_tls := v;
     insecure_content_detected := insecure_content_detected w;
     settings := settings w; zoom_level := zoom_level w |}.

Definition set_insecure_content_detected (v : option bool) (w : WebView) : WebView :=
  {| related_view := related_view w; popup_exception := popup_exception w;
     readable_content := readable_content w; js_timeout := js_timeout w;
     loaded_uri := loaded_uri w; title := title w; bad_tls := bad_tls w;
     insecure_content_detected := v;
     settings := settings w; zoom_level := zoom_level w |}.

Definition set_settings (v : gmap string Value) (w : WebView) : WebView :=
  {| related_view := related_view w; popup_exception := popup_exception w;
     readable_content := readable_content w; js_timeout := js_timeout w;
     loaded_uri := loaded_uri w; title := title w; bad_tls := bad_tls w;
     insecure_content_detected := insecure_content_detected w;
     settings := v; zoom_level := zoom_level w |}.

Definition set_zoom_level (v : Q) (w : WebView) : WebView :=
  {| related_view := related_view w; popup_exception := popup_exception w;
     readable_content := readable_content w; js_timeout := js_timeout w;
     loaded_uri := loaded_uri w; title := title w; bad_tls := bad_tls w;
     insecure_content_detected := insecure_content_detected w;
     settings := settings w; zoom_level := v |}.

(** ** What the view reads from its surroundings

    The application singleton [El()] (settings, ad-block exceptions, stored
    zoom levels, thumbnail paths), the getters of the underlying
    [WebKit2.WebView], the network monitor, the bundled resources, and the
    helper functions imported from outside the repository's two files.
    [fonts] and [system_fonts] are the monospace, sans-serif (document) and
    serif font names of the application's and of the desktop's settings;
    [new_source_id] is the identifier [GLib.timeout_add] hands out. *)
Record Env := {
  popupblock : bool;
  imgblock : bool;
  adblock : bool;
  is_an_exception : string -> bool;
  zoom_levels : gmap string Q;
  art_get_path : string -> string -> string;
  get_uri : string;
  get_title : option string;
  can_show_mime_type : string -> bool;
  window_zoom_level : option Q;
  network_available : bool;
  adblock_children : list string;
  error_css : string;
  error_html : string;
  enable_plugins : bool;
  min_font_size : Z;
  use_system_fonts : bool;
  fonts : string * string * string;
  developer_extras : bool;
  system_fonts : string * string * string;
  gettext : string -> string;
  get_ftp_cmd : string;
  uri_unescape_string : string -> option string;
  new_source_id : N
}.

Definition with_network (b : bool) (env : Env) : Env :=
  {| popupblock := popupblock env; imgblock := imgblock env;
     adblock := adblock env; is_an_exception := is_an_exception env;
     zoom_levels := zoom_levels env; art_get_path := art_get_path env;
     get_uri := get_uri env; get_title := get_title env;
     can_show_mime_type := can_show_mime_type env;
     window_zoom_level := window_zoom_level env;
     network_available := b;
     adblock_children := adblock_children env;
     error_css := error_css env; error_html := error_html env;
     enable_plugins := enable_plugins env; min_font_size := min_font_size env;
     use_system_fonts := use_system_fonts env; fonts := fonts env;
     developer_extras := developer_extras env;
     system_fonts := system_fonts env; gettext := gettext env;
     get_ftp_cmd := get_ftp_cmd env;
     uri_unescape_string := uri_unescape_string env;
     new_source_id := new_source_id env |}.

(** ** The handler monad: environment, state, exceptions, effect log *)

Inductive Res (A : Type) := Ret (a : A) | Raise (e : Exn).
Arguments Ret {A} a.
Arguments Raise {A} e.

Record Out (A : Type) := MkOut { res : Res A; view : WebView; log : list Effect }.
Arguments MkOut {A} res view log.
Arguments res {A} o.
Arguments view {A} o.
Arguments log {A} o.

Definition M (A : Type) : Type := Env -> WebView -> Out A.

Definition run {A} (m : M A) (env : Env) (w : WebView) : Out A := m env w.

#[export] Instance M_ret : MRet M := fun A a _ w => MkOut (Ret a) w [].

#[export] Instance M_bind : MBind M := fun A B k m env w =>
  match m env w with
  | MkOut (Ret a) w1 l1 =>
      match k a env w1 with
      | MkOut r w2 l2 => MkOut r w2 (l1 ++ l2)
      end
  | MkOut (Raise e) w1 l1 => MkOut (Raise e) w1 l1
  end.

Definition ask : M Env := fun env w => MkOut (Ret env) w [].
Definition get : M WebView := fun _ w => MkOut (Ret w) w [].
Definition modify (f : WebView -> WebView) : M unit :=
  fun _ w => MkOut (Ret tt) (f w) [].
Definition tell (e : Effect) : M unit := fun _ w => MkOut (Ret tt) w [e].
Definition raise {A} (e : Exn) : M A := fun _ w => MkOut (Raise e) w [].
Definition skip : M unit := mret tt.

(** [urlparse(uri)], raising [ValueError] where the parser does. *)
Definition py_urlparse (uri : string) : M ParseResult :=
  match urlparse uri with
  | Some parsed => mret parsed
  | None => raise ValueError
  end.

(** [tpl % arg] for a template holding a single [%s]. *)
Fixpoint format1 (tpl arg : string) : string :=
  match tpl with
  | String "%" (String "s" rest) => arg ++ rest
  | String a rest => String a (format1 rest arg)
  | EmptyString => EmptyString
  end.

(** [==] on the engine's enumerations. *)
Definition PolicyDecisionType_eqb (a b : PolicyDecisionType) : bool :=
  match a, b with
  | NAVIGATION_ACTION, NAVIGATION_ACTION
  | NEW_WINDOW_ACTION, NEW_WINDOW_ACTION
  | RESPONSE, RESPONSE => true
  | _, _ => false
  end.

Definition NavigationType_eqb (a b : NavigationType) : bool :=
  match a, b with
  | LINK_CLICKED, LINK_CLICKED
  | FORM_SUBMITTED, FORM_SUBMITTED
  | BACK_FORWARD, BACK_FORWARD
  | RELOAD, RELOAD
  | FORM_RESUBMITTED, FORM_RESUBMITTED
  | OTHER, OTHER => true
  | _, _ => false
  end.

Definition LoadEvent_eqb (a b : LoadEvent) : bool :=
  match a, b with
  | STARTED, STARTED
  | REDIRECTED, REDIRECTED
  | COMMITTED, COMMITTED
  | FINISHED, FINISHED => true
  | _, _ => false
  end.

(** ** Methods of [WebView] *)

Import PyStr.

(** [El().adblock.is_an_exception(parsed.netloc) or
     El().adblock.is_an_exception(parsed.netloc + parsed.path)] *)
Definition adblock_exception (env : Env) (parsed : ParseResult) : bool :=
  is_an_exception env (netloc parsed)
  || is_an_exception env (netloc parsed ++ path parsed).

(** [load_uri] *)
Definition load_uri (uri : string) : M unit :=
  tell CancellableCancel;;
  tell CancellableReset;;
  if String.eqb uri "about:blank" then
    tell (LoadPlainText "");;
    modify (set_loaded_uri uri)
  else
    parsed ← py_urlparse uri;
    if String.eqb (scheme parsed) "ftp" then
      (* We are not a ftp browser, fall back to env *)
      env ← ask;
      tell (SpawnSync [get_ftp_cmd env; uri])
    else if String.eqb (scheme parsed) "javascript" then
      env ← ask;
      match uri_unescape_string env uri with
      | None => raise AttributeError
      | Some uri => tell (RunJavascript (replace "javascript:" "" uri))
      end
    else
      uri ← (if negb (in_list (scheme parsed)
                        ["http"; "https"; "file"; "populars"; "accept"])
             then mret ("http://" ++ uri)
             else
               (* Reset bad tls certificate *)
               (if negb (String.eqb (scheme parsed) "accept") then
                  modify (set_bad_tls None);;
                  modify (set_insecure_content_detected (Some false))
                else skip);;
               mret uri);
      modify (set_loaded_uri uri);;
      tell (WebKitLoadUri uri).

(** [set_popup_exception] *)
Definition set_popup_exception (uri : string) : M unit :=
  modify (set_popup_exception_field (Some uri)).

(** [__set_system_fonts] *)
Definition set_system_fonts (st : gmap string Value) : M (gmap string Value) :=
  env ← ask;
  let '(monospace, document, font) := system_fonts env in
  mret (<["serif-font-family" := VStr font]>
          (<["sans-serif-font-family" := VStr document]>
             (<["monospace-font-family" := VStr monospace]> st))).

(** [set_setting] *)
Definition set_setting (key : string) (value : Value) : M unit :=
  w ← get;
  st ← (if String.eqb key "use-system-fonts"
        then set_system_fonts (settings w)
        else mret (<[key := value]> (settings w)));
  modify (set_settings st).

(** [update_zoom_level].  The local variable [zoom_level] is bound once the
    stored zoom has been looked up; an exception inside the [try] block (the
    parser's, or the attribute access on a missing ancestor window) is
    printed and execution goes on with whatever [zoom_level] holds. *)
Definition update_zoom_level : M unit :=
  env ← ask;
  w ← get;
  let '(zoom_level, raised) :=
    match urlparse (get_uri env) with
    | None => (None, Some ValueError)
    | Some parsed =>
        let zoom_level := default 100%Q (zoom_levels env !! netloc parsed) in
        let window :=
          match related_view w with
          | None => window_zoom_level env
          | Some related => related_window_zoom_level related
          end in
        match window with
        | Some z => (Some (zoom_level * z)%Q, None)
        | None => (Some zoom_level, Some AttributeError)
        end
    end in
  match raised with
  | Some e => tell (Print "WebView::update_zoom_level()" (LogExn e))
  | None => skip
  end;;
  match zoom_level with
  | None => raise UnboundLocalError
  | Some zoom_level =>
      tell (Debug "Update zoom level: %s" (LogNum zoom_level));;
      modify (set_zoom_level (zoom_level / 100)%Q)
  end.

(** [__check_for_network]: [None] is Python's [None], returned when the
    function falls off its end. *)
Definition check_for_network (uri : string) : M (option bool) :=
  env ← ask;
  if network_available env then
    load_uri uri;;
    mret None
  else mret (Some true).

(** [__on_insecure_content_detected] *)
Definition on_insecure_content_detected : M unit :=
  modify (set_insecure_content_detected (Some true)).

(** [__on_accept_scheme], on [request.get_uri()] *)
Definition on_accept_scheme (request_uri : string) : M unit :=
  w ← get;
  match bad_tls w with
  | None => skip
  | Some certificate =>
      parsed ← py_urlparse request_uri;
      tell (AllowTlsCertificateForHost certificate (netloc parsed));;
      load_uri ("https://" ++ netloc parsed ++ path parsed)
  end.

(** [__on_uri_changed] *)
Definition on_uri_changed : M unit :=
  env ← ask;
  modify (set_readable_content "");;
  modify (set_title "");;
  if negb (String.eqb (get_uri env) "about:blank")
  then modify (set_js_timeout None)
  else skip.

(** The prefix under which Readability.js hands the page content over. *)
Definition readable_prefix : string := "@&$%ù²".

(** [__on_title_changed], on [event.name] *)
Definition on_title_changed (name : string) : M unit :=
  if negb (String.eqb name "title") then skip
  else
    env ← ask;
    w ← get;
    match get_title env with
    | None => skip
    | Some new_title =>
        if String.eqb new_title "" || String.eqb new_title (title w) then skip
        else if String.prefix readable_prefix new_title then
          modify (set_readable_content (replace readable_prefix "" new_title));;
          tell (Emit Readable)
        else
          modify (set_title new_title);;
          tell (Emit (TitleChanged new_title));;
          match js_timeout w with
          | None =>
              tell (TimeoutAdd 2000
                      (JavascriptFromGResource "/org/gnome/Eolie/Readability.js"));;
              modify (set_js_timeout (Some (new_source_id env)))
          | Some _ => skip
          end
    end.

(** The loop over [javascripts] at the end of [__on_load_changed]: the first
    script found among the bundled resources ends the loop, run or not. *)
Fixpoint run_adblock_script (parsed : ParseResult) (children javascripts : list string)
  : M unit :=
  match javascripts with
  | [] => skip
  | javascript :: javascripts =>
      if in_list javascript children then
        env ← ask;
        if negb (adblock_exception env parsed)
        then tell (RunJavascriptFromGResource
                     ("/org/gnome/Eolie/adblock/" ++ javascript))
        else skip
      else run_adblock_script parsed children javascripts
  end.

(** [__on_load_changed]; [view] is the view itself. *)
Definition on_load_changed (event : LoadEvent) : M unit :=
  env ← ask;
  parsed ← py_urlparse (get_uri env);
  (if LoadEvent_eqb event STARTED then
     modify (set_popup_exception_field None);;
     modify (set_title "")
   else skip);;
  if LoadEvent_eqb event COMMITTED then
    let exception := adblock_exception env parsed in
    set_setting "auto-load-images" (VBool (negb (imgblock env) || exception));;
    update_zoom_level
  else if LoadEvent_eqb event FINISHED then
    if adblock env then
      (* We need to send a title if non exists *)
      w ← get;
      (if String.eqb (title w) "" then
         let t := default "" (get_title env) in
         let t := if String.eqb t "" then get_uri env else t in
         modify (set_title t);;
         tell (Emit (TitleChanged t))
       else skip);;
      let unlocated_netloc :=
        join_dot (but_last (split_dot (netloc parsed))) in
      let javascripts := [format1 "adblock_%s.js" (netloc parsed);
                          format1 "adblock_%s.js" unlocated_netloc] in
      run_adblock_script parsed (adblock_children env) javascripts
    else skip
  else skip.

(** [__on_load_failed], on [uri] and [error.code] *)
Definition on_load_failed (uri : string) (code : Z) : M bool :=
  env ← ask;
  let network_available := network_available env in
  (* Ignore all others errors *)
  if negb (existsb (Z.eqb code) [2; 4; 44]%Z) then
    tell (Print "WebView::__on_load_failed():" (LogInt code));;
    mret false
  else
    let css := error_css env in
    (* Hide reload button if network is down *)
    let css := if network_available
               then replace "@button@" "" css
               else replace "@button@" "display: none" css in
    let html := error_html env in
    let '(title, detail, icon) :=
      if network_available then
        (gettext env "Failed to load this web page",
         gettext env ("It may be temporarily inaccessible or moved"
                      ++ " to a new address.<br/>"
                      ++ "You may wish to verify that your internet"
                      ++ " connection is working correctly."),
         "dialog-information-symbolic.svg")
      else
        (gettext env "Network not available",
         gettext env "Check your network connection",
         "network-offline-symbolic.svg") in
    tell (LoadHtml html
            [title;
             css;
             format1 "load_uri('%s')" uri;
             "internal:///org/gnome/Eolie/" ++ icon;
             title;
             format1 (gettext env "%s is not available") uri;
             detail;
             "suggested-action";
             gettext env "Retry"]);;
    (if network_available then
       (* Remove preview and start as should be wrong *)
       tell (FileDelete (art_get_path env uri "preview"));;
       tell (FileDelete (art_get_path env uri "start"))
     else
       tell (TimeoutAdd 1000 (CheckForNetwork uri)));;
    mret true.

(** The reason shown on the TLS error page (before translation). *)
Definition tls_error (errors : Z) : string :=
  if (errors =? TlsCertificateFlags.BAD_IDENTITY)%Z then
    "The certificate does not match this website"
  else if (errors =? TlsCertificateFlags.EXPIRED)%Z then
    "The certificate has expired"
  else if (errors =? TlsCertificateFlags.UNKNOWN_CA)%Z then
    "The signing certificate authority is not known"
  else if (errors =? TlsCertificateFlags.GENERIC_ERROR)%Z then
    "The certificate contains errors"
  else if (errors =? TlsCertificateFlags.REVOKED)%Z then
    "The certificate has been revoked"
  else if (errors =? TlsCertificateFlags.INSECURE)%Z then
    "The certificate is signed using" ++ " a weak signature algorithm"
  else if (errors =? TlsCertificateFlags.NOT_ACTIVATED)%Z then
    "The certificate activation time is still in the future"
  else
    "The identity of this website has not been verified".

(** [__on_load_failed_tls] *)
Definition on_load_failed_tls (uri : string) (certificate : Certificate) (errors : Z)
  : M bool :=
  env ← ask;
  modify (set_bad_tls (Some certificate));;
  let css := error_css env in
  let html := error_html env in
  let error := gettext env (tls_error errors) in
  tell (LoadHtml html
          [gettext env "Connection is not secure";
           css;
           format1 "load_uri('%s')" (replace "https://" "accept://" uri);
           "internal:///org/gnome/Eolie/" ++ "dialog-warning-symbolic.svg";
           gettext env "Connection is not secure";
           error;
           format1 (gettext env
                      ("This does not look like the real %s.<br/>"
                       ++ "Attackers might be trying to steal or alter"
                       ++ " information going to or from this site"
                       ++ " (for example, private messages, credit card"
                       ++ " information, or passwords).")) uri;
           "destructive-action";
           gettext env "Accept Risk and Proceed"]);;
  mret true.

(** [__on_decide_policy].  The result is [None] where the Python function
    ends without a [return]. *)
Definition on_decide_policy (decision : PolicyDecision)
    (decision_type : PolicyDecisionType) : M (option bool) :=
  env ← ask;
  (* Always accept response *)
  if PolicyDecisionType_eqb decision_type RESPONSE then
    let mime_type := response_mime_type decision in
    (if can_show_mime_type env mime_type
     then tell DecisionUse
     else tell DecisionDownload);;
    mret (Some false)
  else
    let uri := request_uri decision in
    let mouse_button := mouse_button decision in
    if (mouse_button =? 0)%N then
      if PolicyDecisionType_eqb decision_type NEW_WINDOW_ACTION then
        (* Block popups *)
        let popup_block := popupblock env in
        parsed ← py_urlparse uri;
        let exception := adblock_exception env parsed in
        if exception || negb popup_block
           || negb (existsb (NavigationType_eqb (navigation_type decision))
                      [OTHER; RELOAD; BACK_FORWARD])
        then
          tell (Emit (NewPage uri true));;
          tell DecisionIgnore;;
          mret (Some true)
        else mret None
      else
        tell DecisionUse;;
        mret (Some false)
    else if (mouse_button =? 1)%N then
      modify (set_loaded_uri uri);;
      if PolicyDecisionType_eqb decision_type NEW_WINDOW_ACTION then
        tell (Emit (NewPage uri true));;
        tell DecisionIgnore;;
        mret (Some true)
      else
        tell DecisionUse;;
        mret (Some false)
    else
      tell (Emit (NewPage uri false));;
      tell DecisionIgnore;;
      mret (Some true).

(** [__init]: the attributes and the engine settings of a fresh view. *)
Definition init_settings (env : Env) : gmap string Value :=
  let st : gmap string Value :=
    <["minimum-font-size" := VInt (min_font_size env)]>
      (<["enable-plugins" := VBool (enable_plugins env)]>
         (<["enable-java" := VBool (enable_plugins env)]> ∅)) in
  let st :=
    if use_system_fonts env then
      let '(monospace, document, font) := system_fonts env in
      <["serif-font-family" := VStr font]>
        (<["sans-serif-font-family" := VStr document]>
           (<["monospace-font-family" := VStr monospace]> st))
    else
      let '(monospace, sans_serif, serif) := fonts env in
      <["serif-font-family" := VStr serif]>
        (<["sans-serif-font-family" := VStr sans_serif]>
           (<["monospace-font-family" := VStr monospace]> st)) in
  foldl (fun st kv => <[kv.1 := kv.2]> st) st
    [("auto-load-images", VBool true);
     ("allow-universal-access-from-file-urls", VBool false);
     ("allow-file-access-from-file-urls", VBool false);
     ("enable-javascript", VBool true);
     ("enable-media-stream", VBool true);
     ("enable-mediasource", VBool true);
     ("enable-developer-extras", VBool (developer_extras env));
     ("enable-offline-web-application-cache", VBool true);
     ("enable-page-cache", VBool true);
     ("enable-resizable-text-areas", VBool true);
     ("enable-smooth-scrolling", VBool false);
     ("enable-webaudio", VBool true);
     ("enable-webgl", VBool true);
     ("javascript-can-access-clipboard", VBool true);
     ("javascript-can-open-windows-automatically", VBool true);
     ("media-playback-allows-inline", VBool true)].

Definition init (env : Env) (related : option RelatedView) : WebView :=
  {| related_view := related;
     popup_exception := None;
     readable_content := "";
     js_timeout := None;
     loaded_uri := "";
     title := "";
     bad_tls := None;
     insecure_content_detected := None;
     settings := init_settings env;
     zoom_level := 1 |}.

(** The window whose zoom level multiplies the stored one: the ancestor
    window of the related view if there is one, of the view itself if not. *)
Definition zoom_window (env : Env) (w : WebView) : option Q :=
  match related_view w with
  | None => window_zoom_level env
  | Some related => related_window_zoom_level related
  end.

(** ** Timeout sources

    [GLib.timeout_add(interval, callback, ...)] calls the callback once per
    interval for as long as it returns a true value; a false value ([False]
    or [None]) or an exception removes the source. *)

Definition run_callback (cb : Callback) : M (option bool) :=
  match cb with
  | CheckForNetwork uri => check_for_network uri
  | JavascriptFromGResource resource =>
      tell (RunJavascriptFromGResource resource);;
      mret None
  end.



(** ** Events of a view's life

    One event per modelled method or signal handler, with its arguments;
    [handle] runs it and drops its result. *)

Inductive Event :=
| LoadUri (uri : string)
| SetPopupException (uri : string)
| SetSetting (key : string) (value : Value)
| UpdateZoomLevel
| Timeout (cb : Callback)
| InsecureContentDetected
| AcceptScheme (request_uri : string)
| UriChanged
| TitleNotify (name : string)
| LoadChanged (event : LoadEvent)
| LoadFailed (uri : string) (code : Z)
| LoadFailedTls (uri : string) (certificate : Certificate) (errors : Z)
| DecidePolicy (decision : PolicyDecision) (decision_type : PolicyDecisionType).

Definition void {A} (m : M A) : M unit := m;; mret tt.

Definition handle (ev : Event) : M unit :=
  match ev with
  | LoadUri uri => load_uri uri
  | SetPopupException uri => set_popup_exception uri
  | SetSetting key value => set_setting key value
  | UpdateZoomLevel => update_zoom_level
  | Timeout cb => void (run_callback cb)
  | InsecureContentDetected => on_insecure_content_detected
  | AcceptScheme request_uri => on_accept_scheme request_uri
  | UriChanged => on_uri_changed
  | TitleNotify name => on_title_changed name
  | LoadChanged event => on_load_changed event
  | LoadFailed uri code => void (on_load_failed uri code)
  | LoadFailedTls uri certificate errors =>
      void (on_load_failed_tls uri certificate errors)
  | DecidePolicy decision decision_type =>
      void (on_decide_policy decision decision_type)
  end.

(** The view after a series of events, each in its own surroundings. *)
Fixpoint after (evs : list (Env * Event)) (w : WebView) : WebView :=
  match evs with
  | [] => w
  | (env, ev) :: evs => after evs (view (run (handle ev) env w))
  end.

(** ** A sample environment and sample requests *)

Definition sample_env : Env :=
  {| popupblock := true; imgblock := false; adblock := true;
     is_an_exception := fun _ => false;
     zoom_levels := {[ "www.example.com" := 150%Q ]};
     art_get_path := fun uri suffix => "/cache/" ++ suffix;
     get_uri := "https://www.example.com/a";
     get_title := None;
     can_show_mime_type := fun mime => String.eqb mime "text/html";
     window_zoom_level := Some 2%Q;
     network_available := false;
     adblock_children := ["adblock_www.example.js"];
     error_css := "button { @button@ }";
     error_html := "<html><head><title>%s</title><style>%s</style></head>"
                   ++ "<body><a onclick=%s><img src=%s></a><h1>%s</h1>"
                   ++ "<h2>%s</h2><p>%s</p><button class=%s>%s</button>"
                   ++ "</body></html>";
     enable_plugins := true; min_font_size := 8;
     use_system_fonts := false;
     fonts := ("Monospace 11", "Sans 11", "Serif 11");
     developer_extras := false;
     system_fonts := ("Monospace 11", "Cantarell 11", "Cantarell 11");
     gettext := fun msg => msg;
     get_ftp_cmd := "nautilus";
     uri_unescape_string := fun uri => Some uri;
     new_source_id := 1 |}.

Definition sample_view : WebView := init sample_env None.

Definition sample_cert : Certificate := Cert "-----BEGIN CERTIFICATE-----".

(** The sample view after a TLS failure with an expired certificate. *)
Definition tls_failed_view : WebView :=
  view (run (on_load_failed_tls "https://example.com/a?b=1" sample_cert
               TlsCertificateFlags.EXPIRED) sample_env sample_view).

Definition popup_request : PolicyDecision :=
  {| response_mime_type := ""; request_uri := "https://ads.example/x";
     mouse_button := 0; navigation_type := OTHER |}.

Definition click_request : PolicyDecision :=
  {| response_mime_type := ""; request_uri := "https://a.example/";
     mouse_button := 1; navigation_type := LINK_CLICKED |}.

Definition pdf_response : PolicyDecision :=
  {| response_mime_type := "application/pdf"; request_uri := "https://a.example/x.pdf";
     mouse_button := 2; navigation_type := LINK_CLICKED |}.

(** ** Further handlers of [WebView] *)

(** [tpl % (a, b)] for a template holding two [%s]. *)
Fixpoint format2 (tpl a b : string) : string :=
  match tpl with
  | String "%" (String "s" rest) => a ++ format1 rest b
  | String c rest => String c (format2 rest a b)
  | EmptyString => EmptyString
  end.

(** [__on_internal_scheme], on [request.get_uri()]: the URI of the file that
    is read and the MIME type the request is finished with. *)
Definition on_internal_scheme (request_uri : string) : string * string :=
  (* We use internal:/ because resource:/ is already used by WebKit2 *)
  let uri := replace "internal:/" "resource:/" request_uri in
  (uri, "image/svg+xml").

(** The kinds of [WebKit2.PermissionRequest] the handler tells apart. *)
Inductive PermissionRequest :=
| GeolocationPermissionRequest
| NotificationPermissionRequest
| OtherPermissionRequest.

Inductive PermissionAnswer := Allow | Deny.

(** [__on_permission_request]; [private] is the view's [is-ephemeral]
    property.  The answer is [None] when the request is neither allowed nor
    denied.  Reading [__insecure_content_detected] before any method has
    assigned it raises [AttributeError]. *)
Definition on_permission_request (private : bool) (request : PermissionRequest)
    (w : WebView) : Res (option PermissionAnswer) :=
  match request with
  | GeolocationPermissionRequest =>
      match insecure_content_detected w with
      | None => Raise AttributeError
      | Some insecure =>
          if insecure || private then Ret (Some Deny) else Ret (Some Allow)
      end
  | NotificationPermissionRequest =>
      (* Use can use Gnome Shell notification policy *)
      Ret (Some Allow)
  | OtherPermissionRequest => Ret None
  end.

(** What [__on_populars_scheme] reads: the bookmarks' popular pages
    ([(bookmark_id, title, uri)]), the history search ([(title, uri)]),
    whether a thumbnail file exists, and the two halves of the start page. *)
Record Stores := {
  get_populars : Z -> list (Z * string * string);
  history_search : string -> Z -> list (string * string);
  query_exists : string -> bool;
  start_html : string;
  end_html : string
}.

(** The [items] list of [__on_populars_scheme]. *)
Definition populars_items (st : Stores) : list (string * string) :=
  (* First from bookmarks *)
  let items :=
    fold_left (fun items '(bookmark_id, title, uri) => (items ++ [(title, uri)])%list)
      (get_populars st 20) [] in
  (* Then from history *)
  let more := (30 - Z.of_nat (length items))%Z in
  if (more >? 0)%Z then
    let uris := map snd items in
    fold_left (fun items '(title, uri) =>
                 if negb (in_list uri uris)
                 then (items ++ [(title, uri)])%list else items)
      (history_search st "" more) items
  else items.

Definition double_quote : string := String (ascii_of_nat 34) "".

(** The three pieces appended to the page for one item. *)
Definition populars_child (title uri path : string) : string :=
  format2 ("<a class=" ++ double_quote ++ "child" ++ double_quote
           ++ " title=" ++ double_quote ++ "%s" ++ double_quote
           ++ " href=" ++ double_quote ++ "%s" ++ double_quote ++ ">") title uri
  ++ format1 ("<img src=" ++ double_quote ++ "file://%s" ++ double_quote
              ++ "></img>") path
  ++ format1 ("<div class=" ++ double_quote ++ "caption" ++ double_quote
              ++ ">%s</div></a>") title.

(** [__on_populars_scheme]: the page and the MIME type the request is
    finished with. *)
Definition on_populars_scheme (env : Env) (st : Stores) : string * string :=
  let items := populars_items st in
  (* Update start *)
  let html_start := replace "@TITLE@" (gettext env "Popular pages") (start_html st) in
  let html_start :=
    fold_left (fun html_start '(title, uri) =>
                 let path := art_get_path env uri "start" in
                 if negb (query_exists st path) then html_start
                 else html_start ++ populars_child title uri path)
      items html_start in
  (html_start ++ end_html st, "text/html").

(** The selection guessed from the clipboard: [__selection] and
    [__initial_selection]; the clipboard's [wait_for_text()] is [None] when
    it holds no text. *)
Record Selection := {
  selection : string;
  initial_selection : option string
}.

Definition init_selection : Selection :=
  {| selection := ""; initial_selection := Some "" |}.

Definition option_string_eqb (a b : option string) : bool :=
  match a, b with
  | Some a, Some b => String.eqb a b
  | None, None => true
  | _, _ => false
  end.

(** [__on_button_press_event] *)
Definition on_button_press_event (clipboard : option string) (s : Selection)
  : Selection :=
  {| selection := ""; initial_selection := clipboard |}.

(** [__on_button_release_event] *)
Definition on_button_release_event (clipboard : option string) (s : Selection)
  : Selection :=
  {| selection :=
       if negb (option_string_eqb clipboard (initial_selection s))
       then match clipboard with Some text => text | None => "" end
       else selection s;
     initial_selection := Some "" |}.

(** [Gdk.InputSource] *)
Inductive InputSource :=
  MOUSE | PEN | ERASER | CURSOR | KEYBOARD | TOUCHSCREEN | TOUCHPAD
| TRACKPOINT | TABLET_PAD.

Definition InputSource_eqb (a b : InputSource) : bool :=
  match a, b with
  | MOUSE, MOUSE | PEN, PEN | ERASER, ERASER | CURSOR, CURSOR
  | KEYBOARD, KEYBOARD | TOUCHSCREEN, TOUCHSCREEN | TOUCHPAD, TOUCHPAD
  | TRACKPOINT, TRACKPOINT | TABLET_PAD, TABLET_PAD => true
  | _, _ => false
  end.

(** A [Gdk.EventScroll], as far as the handler uses it. *)
Record EventScroll := {
  source : InputSource;
  delta_x : Q;
  delta_y : Q
}.

(** [__set_smooth_scrolling] *)
Definition set_smooth_scrolling (source : InputSource) (w : WebView) : WebView :=
  set_settings
    (<["enable-smooth-scrolling" := VBool (negb (InputSource_eqb source MOUSE))]>
       (settings w)) w.

(** [__on_scroll_event]: the event with its deltas adapted, the new
    [__input_source] and the view. *)
Definition on_scroll_event (event : EventScroll) (input_source : InputSource)
    (w : WebView) : EventScroll * InputSource * WebView :=
  let event :=
    if InputSource_eqb (source event) MOUSE
    then {| source := source event;
            delta_x := (delta_x event * 2)%Q;
            delta_y := (delta_y event * 2)%Q |}
    else event in
  if negb (InputSource_eqb input_source (source event))
  then (event, source event, set_smooth_scrolling (source event) w)
  else (event, input_source, w).

(** Calls made while handling a form. *)
Inductive FormCall :=
| HelperCall (method : string) (page_id : Z)
| FormEmit (s : Signal)
| RequestSubmit
| FormPrint (tag : string).

(** [__on_submit_form] with [__get_forms] *)
Definition on_submit_form (private : bool) (page_id : Z) : list FormCall :=
  if private then [] else [HelperCall "GetForms" page_id].

(** [__on_get_forms]; [result] is what [source.call_finish(result)[0]]
    unpacks to, [None] when that raises.  Every exception is caught and
    printed. *)
Definition on_get_forms (env : Env) (result : option (string * string))
  : list FormCall :=
  match result with
  | None => [FormPrint "WebView::__on_get_forms():"]
  | Some (username, password) =>
      if String.eqb username "" || String.eqb password "" then []
      else
        match urlparse (get_uri env) with
        | None => [FormPrint "WebView::__on_get_forms():"]
        | Some parsed =>
            [FormEmit (SavePassword username password (netloc parsed));
             RequestSubmit]
        end
  end.

(** ** [src/view.py]: the URI label *)

(** [Gtk.Align] *)
Module Align.
Inductive t := FILL | START | END | CENTER | BASELINE.
Definition eqb (a b : t) : bool :=
  match a, b with
  | FILL, FILL | START, START | END, END | CENTER, CENTER
  | BASELINE, BASELINE => true
  | _, _ => false
  end.
End Align.

(** The label: its text, its alignment properties and the classes of the
    inner label's style context. *)
Record UriLabel := {
  label_text : string;
  halign : Align.t;
  valign : Align.t;
  style_classes : gset string
}.

(** [UriLabel.__init__]; the alignments start at the toolkit's default. *)
Definition UriLabel_init : UriLabel :=
  {| label_text := ""; halign := Align.FILL; valign := Align.FILL;
     style_classes := {["urilabel"]} |}.

(** [UriLabel.set_text] *)
Definition set_text (text : string) (l : UriLabel) : UriLabel :=
  if String.eqb text (label_text l) then l
  else
    {| label_text := text;
       halign := Align.START;
       valign := Align.END;
       style_classes := {["bottom-left"]} ∪ (style_classes l ∖ {["bottom-right"]}) |}.

Inductive IdleCall := IdleHide | IdleShow.

(** [UriLabel.__on_enter_notify]: the label and the calls queued with
    [GLib.idle_add]. *)
Definition on_enter_notify (l : UriLabel) : UriLabel * list IdleCall :=
  let l :=
    (* Move label at the right *)
    if Align.eqb (halign l) Align.START then
      {| label_text := label_text l;
         halign := Align.END;
         valign := valign l;
         style_classes := {["bottom-right"]} ∪ (style_classes l ∖ {["bottom-left"]}) |}
    (* Move label at top *)
    else
      {| label_text := label_text l;
         halign := Align.START;
         valign := Align.START;
         style_classes := ({["top-left"]} ∪ style_classes l) ∖ {["bottom-right"]} |} in
  (l, [IdleHide; IdleShow]).

(** ** [src/view.py]: the view *)

(** [int(s)] on ASCII text: surrounding whitespace (tab, line feed, vertical
    tab, form feed, carriage return, blank), an optional sign, and decimal
    digits that single underscores may separate. *)
Module PyInt.

Definition is_space (c : ascii) : bool :=
  let n := nat_of_ascii c in
  ((9 <=? n)%nat && (n <=? 13)%nat) || (n =? 32)%nat.

Fixpoint lstrip (s : string) : string :=
  match s with
  | String a s' => if is_space a then lstrip s' else s
  | EmptyString => EmptyString
  end.

Fixpoint rstrip (s : string) : string :=
  match s with
  | EmptyString => EmptyString
  | String a s' =>
      let r := rstrip s' in
      if String.eqb r "" && is_space a then EmptyString else String a r
  end.

Definition digit_value (c : ascii) : Z := Z.of_nat (nat_of_ascii c - 48).

Fixpoint digits (acc : Z) (after_digit : bool) (s : string) : option Z :=
  match s with
  | EmptyString => if after_digit then Some acc else None
  | String a s' =>
      if is_digit a then digits (10 * acc + digit_value a) true s'
      else if Ascii.eqb a "_" && after_digit then digits acc false s'
      else None
  end.

Definition int (s : string) : option Z :=
  match rstrip (lstrip s) with
  | String "-" s' => Z.opp <$> digits 0 false s'
  | String "+" s' => digits 0 false s'
  | s' => digits 0 false s'
  end.

(** [s[-2:]] *)
Fixpoint last2 (s : string) : string :=
  match s with
  | String _ (String _ (String _ _) as s') => last2 s'
  | _ => s
  end.

End PyInt.

(** The page built for the reading view; the font size (in pt) and the
    width, Python floats, are kept as rationals. *)
Record ReadingHtml := {
  reading_font_size : Q;
  reading_width : Q;
  reading_title : string;
  reading_content : string
}.

Inductive ViewCall :=
| ReadingViewNew
| ReadingViewShow
| AddOverlayReadingView
| IdleLoadHtml (html : ReadingHtml)
| ReadingViewDestroy
| UriLabelShow
| UriLabelHide.

(** The attributes of [View]: whether a reading view exists, the
    [__in_read_mode] flag ([None] until assigned), the parent's identity, the
    URI label and the web view. *)
Record View := {
  reading_view : bool;
  in_read_mode : option bool;
  parent : option N;
  uri_label : UriLabel;
  webview : WebView
}.

(** [View.__init__], on the web view it creates or is given. *)
Definition View_init (parent : option N) (webview : WebView) : View :=
  {| reading_view := false; in_read_mode := None; parent := parent;
     uri_label := UriLabel_init; webview := webview |}.

(** The [reading] property. *)
Definition reading (v : View) : bool := reading_view v.

(** [View.switch_read_mode]; [allocated_width] is [get_allocated_width()].
    The document font name is the second of [system_fonts]. *)
Definition switch_read_mode (env : Env) (allocated_width : Q) (v : View)
  : Res (View * list ViewCall) :=
  let document_font_name := (system_fonts env).1.2 in
  match PyInt.int (PyInt.last2 document_font_name) with
  | None => Raise ValueError
  | Some size =>
      let document_font_size := (inject_Z size * (13 # 10))%Q in
      if negb (reading_view v) then
        if negb (String.eqb (readable_content (webview v)) "") then
          let html :=
            {| reading_font_size := document_font_size;
               reading_width := (allocated_width / (15 # 10))%Q;
               reading_title :=
                 match get_title env with Some t => t | None => "None" end;
               reading_content := readable_content (webview v) |} in
          Ret ({| reading_view := true; in_read_mode := Some true;
                  parent := parent v; uri_label := uri_label v;
                  webview := webview v |},
               [ReadingViewNew; ReadingViewShow; AddOverlayReadingView;
                IdleLoadHtml html])
        else
          Ret ({| reading_view := true; in_read_mode := in_read_mode v;
                  parent := parent v; uri_label := uri_label v;
                  webview := webview v |},
               [ReadingViewNew; ReadingViewShow; AddOverlayReadingView])
      else
        Ret ({| reading_view := false; in_read_mode := in_read_mode v;
                parent := parent v; uri_label := uri_label v;
                webview := webview v |},
             [ReadingViewDestroy])
  end.

(** [View.__on_mouse_target_changed]; [link] is [hit.get_link_uri()] when
    [hit.context_is_link()]. *)
Definition on_mouse_target_changed (link : option string) (v : View)
  : View * list ViewCall :=
  match link with
  | Some uri =>
      ({| reading_view := reading_view v; in_read_mode := in_read_mode v;
          parent := parent v; uri_label := set_text uri (uri_label v);
          webview := webview v |},
       [UriLabelShow])
  | None => (v, [UriLabelHide])
  end.

(** [View.__on_parent_destroy] *)
Definition on_parent_destroy (v : View) : View :=
  {| reading_view := reading_view v; in_read_mode := in_read_mode v;
     parent := None; uri_label := uri_label v; webview := webview v |}.

(** ** Effects over a series of events *)

(** The effects of a series of events, in order. *)
Fixpoint effects_of (evs : list (Env * Event)) (w : WebView) : list Effect :=
  match evs with
  | [] => []
  | (env, ev) :: evs =>
      (log (run (handle ev) env w)
       ++ effects_of evs (view (run (handle ev) env w)))%list
  end.

(** The attributes [load_uri] never assigns. *)
Definition load_frame (w w' : WebView) : Prop :=
  related_view w' = related_view w
  /\ popup_exception w' = popup_exception w
  /\ readable_content w' = readable_content w
  /\ js_timeout w' = js_timeout w
  /\ title w' = title w
  /\ settings w' = settings w
  /\ zoom_level w' = zoom_level w.


(** ** Vocabulary for the properties of the further handlers *)

(** The children of the start page for a list of items, in order. *)
Fixpoint children_html (env : Env) (items : list (string * string)) : string :=
  match items with
  | [] => EmptyString
  | (title, uri) :: items =>
      populars_child title uri (art_get_path env uri "start")
      ++ children_html env items
  end.

(** The smooth-scrolling setting agrees with the remembered input source. *)
Definition smooth_scrolling_tracks (input_source : InputSource) (w : WebView) : Prop :=
  settings w !! "enable-smooth-scrolling"
  = Some (VBool (negb (InputSource_eqb input_source MOUSE))).

(** A series of scroll events. *)
Fixpoint scrolls (events : list EventScroll) (input_source : InputSource)
    (w : WebView) : InputSource * WebView :=
  match events with
  | [] => (input_source, w)
  | event :: events =>
      let '(_, input_source, w) := on_scroll_event event input_source w in
      scrolls events input_source w
  end.

(** What happens to a URI label: a text is set, or the pointer enters it. *)
Inductive LabelOp := SetText (text : string) | EnterNotify.

Fixpoint label_after (ops : list LabelOp) (l : UriLabel) : UriLabel :=
  match ops with
  | [] => l
  | SetText text :: ops => label_after ops (set_text text l)
  | EnterNotify :: ops => label_after ops (on_enter_notify l).1
  end.

(** * Properties *)

(** ** The string and URL models on sample inputs *)

Example urlparse_https :
  urlparse "https://www.example.com/a/b;p?q=1#f"
  = Some {| scheme := "https"; netloc := "www.example.com"; path := "/a/b";
            params := "p"; query := "q=1"; fragment := "f" |}.
Proof. reflexivity. Qed.

Example urlparse_accept :
  urlparse "accept://example.com:8443/a;p?b=1"
  = Some {| scheme := "accept"; netloc := "example.com:8443"; path := "/a;p";
            params := ""; query := "b=1"; fragment := "" |}.
Proof. reflexivity. Qed.

Example urlparse_bare_host :
  urlparse "example.com/x"
  = Some {| scheme := ""; netloc := ""; path := "example.com/x";
            params := ""; query := ""; fragment := "" |}.
Proof. reflexivity. Qed.

Example urlparse_port_not_scheme :
  urlparse "localhost:8080"
  = Some {| scheme := ""; netloc := ""; path := "localhost:8080";
            params := ""; query := ""; fragment := "" |}.
Proof. reflexivity. Qed.

Example urlparse_about_blank :
  scheme <$> urlparse "about:blank" = Some "about".
Proof. reflexivity. Qed.

Example urlparse_bad_bracket : urlparse "http://[::1/x" = None.
Proof. reflexivity. Qed.

Example replace_all :
  PyStr.replace "https://" "accept://" "https://a/?u=https://b" = "accept://a/?u=accept://b".
Proof. reflexivity. Qed.

Example strip_last_label :
  PyStr.join_dot (PyStr.but_last (PyStr.split_dot "www.example.com")) = "www.example".
Proof. reflexivity. Qed.

Example strip_last_label_single :
  PyStr.join_dot (PyStr.but_last (PyStr.split_dot "localhost")) = "".
Proof. reflexivity. Qed.

Example format1_action : format1 "load_uri('%s')" "http://a/" = "load_uri('http://a/')".
Proof. reflexivity. Qed.

(** ** Proof tools *)

Ltac unfold_m :=
  unfold run, void, mbind, M_bind, mret, M_ret, ask, get, modify, tell, raise, skip.

Lemma append_String (c : ascii) (a b : string) :
  String c a ++ b = String c (a ++ b).
Proof. reflexivity. Qed.

Lemma append_Empty (b : string) : "" ++ b = b.
Proof. reflexivity. Qed.

Ltac norm_str := rewrite ?append_String, ?append_Empty.

Lemma in_codes (code : Z) (l : list Z) :
  existsb (Z.eqb code) l = true <-> In code l.
Proof.
  rewrite existsb_exists. split.
  - intros (x & Hx & Heq). apply Z.eqb_eq in Heq. now subst.
  - intros H. exists code. split; [assumption | apply Z.eqb_refl].
Qed.

Lemma not_in_codes (code : Z) (l : list Z) :
  existsb (Z.eqb code) l = false <-> ~ In code l.
Proof.
  rewrite <- in_codes. destruct (existsb (Z.eqb code) l); split; congruence.
Qed.

(** ** Navigation policy *)

(** C2.  A response is used when the engine can show its MIME type and is
    downloaded otherwise; the handler returns [False] and leaves the view as
    it is.  Two response decisions whose MIME types are equally renderable
    get the same outcome, whatever the mouse button, the navigation type, the
    request URI, the settings, the exception registry and the view are. *)
Theorem response_policy_by_mime_only
    (env env' : Env) (w w' : WebView) (d d' : PolicyDecision) :
  can_show_mime_type env' (response_mime_type d')
  = can_show_mime_type env (response_mime_type d) ->
  run (on_decide_policy d RESPONSE) env w
  = MkOut (Ret (Some false)) w
      [if can_show_mime_type env (response_mime_type d)
       then DecisionUse else DecisionDownload]
  /\ res (run (on_decide_policy d' RESPONSE) env' w')
     = res (run (on_decide_policy d RESPONSE) env w)
  /\ log (run (on_decide_policy d' RESPONSE) env' w')
     = log (run (on_decide_policy d RESPONSE) env w)
  /\ view (run (on_decide_policy d' RESPONSE) env' w') = w'.
Proof.
  intros Hmime. unfold on_decide_policy. unfold_m. cbn.
  rewrite Hmime.
  destruct (can_show_mime_type env (response_mime_type d)); cbn; auto.
Qed.

Lemma response_policy_by_mime_only_witness :
  run (on_decide_policy pdf_response RESPONSE) sample_env sample_view
  = MkOut (Ret (Some false)) sample_view [DecisionDownload]
  /\ log (run (on_decide_policy popup_request RESPONSE)
            (with_network true sample_env) (set_title "x" sample_view))
     = [DecisionDownload].
Proof.
  destruct (response_policy_by_mime_only sample_env (with_network true sample_env)
              sample_view (set_title "x" sample_view) pdf_response popup_request)
    as (H1 & _ & H3 & _).
  - reflexivity.
  - split; [exact H1 | rewrite H3, H1; reflexivity].
Defined.

(** C1, as the code has it.  A script-initiated new-window request (mouse
    button 0) whose navigation type is [OTHER], [RELOAD] or [BACK_FORWARD],
    with popup blocking on and neither the host nor host+path an exception:
    the handler emits no [new-page], calls none of [use], [download] and
    [ignore] on the decision, leaves the view as it is, and ends without a
    [return]: the decision is left to the engine's default handling. *)
Theorem blocked_popup_takes_no_decision
    (env : Env) (w : WebView) (d : PolicyDecision) (parsed : ParseResult) :
  mouse_button d = 0%N ->
  In (navigation_type d) [OTHER; RELOAD; BACK_FORWARD] ->
  popupblock env = true ->
  urlparse (request_uri d) = Some parsed ->
  is_an_exception env (netloc parsed) = false ->
  is_an_exception env (netloc parsed ++ path parsed) = false ->
  run (on_decide_policy d NEW_WINDOW_ACTION) env w = MkOut (Ret None) w [].
Proof.
  intros Hbutton Hnav Hblock Hparse Hhost Hpath.
  unfold on_decide_policy, py_urlparse, adblock_exception. unfold_m.
  rewrite Hbutton, Hparse. cbn.
  rewrite Hhost, Hpath, Hblock. cbn.
  destruct Hnav as [<- | [<- | [<- | []]]]; reflexivity.
Qed.

Lemma blocked_popup_takes_no_decision_witness :
  run (on_decide_policy popup_request NEW_WINDOW_ACTION) sample_env sample_view
  = MkOut (Ret None) sample_view [].
Proof.
  apply (blocked_popup_takes_no_decision sample_env sample_view popup_request
           {| scheme := "https"; netloc := "ads.example"; path := "/x";
              params := ""; query := ""; fragment := "" |}).
  - reflexivity.
  - simpl. auto.
  - reflexivity.
  - reflexivity.
  - reflexivity.
  - reflexivity.
Defined.

(** C1, as stated, fails: on the blocked popup of the sample, every premise
    of the claim holds and yet [use] is not called on the decision. *)
Lemma blocked_popup_does_not_use :
  mouse_button popup_request = 0%N
  /\ In (navigation_type popup_request) [OTHER; RELOAD; BACK_FORWARD]
  /\ popupblock sample_env = true
  /\ (adblock_exception sample_env <$> urlparse (request_uri popup_request))
     = Some false
  /\ ~ In DecisionUse
       (log (run (on_decide_policy popup_request NEW_WINDOW_ACTION)
               sample_env sample_view)).
Proof.
  repeat split; try reflexivity.
  - simpl. auto.
  - vm_compute. intros [].
Qed.

(** C3, as the code has it.  The outcome of the policy handler (its result
    and its effects) does not depend on the view; the view is left as it is
    except for a navigation or new-window decision with mouse button 1, where
    [loaded_uri] is set to the request URI; deciding again on the resulting
    view changes nothing more. *)
Theorem decide_policy_touches_loaded_uri
    (env : Env) (w : WebView) (d : PolicyDecision) (t : PolicyDecisionType) :
  (forall w' : WebView,
      res (run (on_decide_policy d t) env w')
      = res (run (on_decide_policy d t) env w)
      /\ log (run (on_decide_policy d t) env w')
         = log (run (on_decide_policy d t) env w))
  /\ view (run (on_decide_policy d t) env w)
     = (if negb (PolicyDecisionType_eqb t RESPONSE) && (mouse_button d =? 1)%N
        then set_loaded_uri (request_uri d) w else w)
  /\ run (on_decide_policy d t) env (view (run (on_decide_policy d t) env w))
     = run (on_decide_policy d t) env w.
Proof.
  unfold on_decide_policy, py_urlparse. unfold_m.
  destruct t; cbn;
    destruct (can_show_mime_type env (response_mime_type d));
    destruct (mouse_button d) as [|[?|?|]]; cbn;
    destruct (urlparse (request_uri d)); cbn;
    try destruct (_ || _); cbn; auto.
Qed.

(** C3, as stated, fails: a primary-button link click changes [loaded_uri]. *)
Lemma decide_policy_mutates_loaded_uri :
  view (run (on_decide_policy click_request NAVIGATION_ACTION)
          sample_env sample_view) <> sample_view
  /\ loaded_uri sample_view = ""
  /\ loaded_uri (view (run (on_decide_policy click_request NAVIGATION_ACTION)
                         sample_env sample_view))
     = "https://a.example/".
Proof.
  split; [| split; reflexivity].
  intros Heq. apply (f_equal loaded_uri) in Heq. discriminate Heq.
Qed.

(** ** Load failures *)

(** C6.  A load failure renders the error page exactly when the error code
    is one of 2, 4 and 44.  For any other code the handler prints the code,
    returns [False] so that the failure goes on to the engine, and neither
    loads a page nor changes the view.  For a recognized code it returns
    [True], leaves the view as it is and loads the error template filled
    with the title, the style sheet (retry button shown or hidden), the
    retry action on the failed URI, the icon, the title again, the
    "not available" line, the detail, the button class and the button
    label, before it deletes the thumbnails or adds the recheck timer. *)
Theorem load_failed_error_page_iff_recognized
    (env : Env) (w : WebView) (uri : string) (code : Z) :
  let up := network_available env in
  let title :=
    gettext env (if up then "Failed to load this web page"
                 else "Network not available") in
  let page :=
    LoadHtml (error_html env)
      [title;
       replace "@button@" (if up then "" else "display: none") (error_css env);
       "load_uri('" ++ uri ++ "')";
       "internal:///org/gnome/Eolie/"
       ++ (if up then "dialog-information-symbolic.svg"
           else "network-offline-symbolic.svg");
       title;
       format1 (gettext env "%s is not available") uri;
       gettext env
         (if up
          then "It may be temporarily inaccessible or moved to a new address.<br/>You may wish to verify that your internet connection is working correctly."
          else "Check your network connection");
       "suggested-action";
       gettext env "Retry"] in
  ((exists template args,
       In (LoadHtml template args) (log (run (on_load_failed uri code) env w)))
   <-> In code [2; 4; 44]%Z)
  /\ (~ In code [2; 4; 44]%Z ->
      run (on_load_failed uri code) env w
      = MkOut (Ret false) w [Print "WebView::__on_load_failed():" (LogInt code)])
  /\ (In code [2; 4; 44]%Z ->
      run (on_load_failed uri code) env w
      = MkOut (Ret true) w
          (page
           :: (if up
               then [FileDelete (art_get_path env uri "preview");
                     FileDelete (art_get_path env uri "start")]
               else [TimeoutAdd 1000 (CheckForNetwork uri)]))).
Proof.
  unfold on_load_failed. unfold_m.
  destruct (existsb (Z.eqb code) [2; 4; 44]%Z) eqn:Hcode; cbn.
  - apply in_codes in Hcode.
    destruct (network_available env); cbn;
      (split; [split; [intros _; exact Hcode | intros _; eauto] |]);
      (split; [intros Hnot; contradiction | intros _; reflexivity]).
  - apply not_in_codes in Hcode.
    split; [split |].
    + intros (template & args & [Hin | []]). discriminate Hin.
    + intros Hin. contradiction.
    + split; [reflexivity | intros Hin; contradiction].
Qed.

Lemma load_failed_error_page_iff_recognized_witness :
  run (on_load_failed "http://a/" 3) sample_env sample_view
  = MkOut (Ret false) sample_view
      [Print "WebView::__on_load_failed():" (LogInt 3)]
  /\ run (on_load_failed "http://a/" 44) sample_env sample_view
     = MkOut (Ret true) sample_view
         [LoadHtml (error_html sample_env)
            ["Network not available";
             "button { display: none }";
             "load_uri('http://a/')";
             "internal:///org/gnome/Eolie/network-offline-symbolic.svg";
             "Network not available";
             "http://a/ is not available";
             "Check your network connection";
             "suggested-action";
             "Retry"];
          TimeoutAdd 1000 (CheckForNetwork "http://a/")].
Proof.
  split.
  - apply (load_failed_error_page_iff_recognized sample_env sample_view "http://a/" 3).
    simpl. lia.
  - apply (load_failed_error_page_iff_recognized sample_env sample_view "http://a/" 44).
    simpl. lia.
Defined.

(** ** The TLS override, first part *)

(** C10.  With no pending certificate the accept handler does nothing: no
    certificate is registered, no load is issued, the view is unchanged. *)
Theorem accept_without_certificate_is_noop
    (env : Env) (w : WebView) (request_uri : string) :
  bad_tls w = None ->
  run (on_accept_scheme request_uri) env w = MkOut (Ret tt) w [].
Proof.
  intros Hnone. unfold on_accept_scheme. unfold_m. rewrite Hnone. reflexivity.
Qed.

Lemma accept_without_certificate_is_noop_witness :
  run (on_accept_scheme "accept://example.com/a") sample_env sample_view
  = MkOut (Ret tt) sample_view [].
Proof.
  apply (accept_without_certificate_is_noop sample_env sample_view).
  reflexivity.
Defined.

(** ** Load life cycle: committed *)

(** C9.  When a load is committed, [auto-load-images] is set to
    [not imgblock or is_exception(host) or is_exception(host + path)], and
    the zoom level becomes the host's stored zoom, 100 when the host has no
    entry, times the window's zoom level, over 100 (stored zooms are
    percentages, the engine's zoom level is a factor). *)
Theorem committed_sets_images_and_zoom
    (env : Env) (w : WebView) (parsed : ParseResult) (z : Q) :
  urlparse (get_uri env) = Some parsed ->
  zoom_window env w = Some z ->
  let o := run (on_load_changed COMMITTED) env w in
  res o = Ret tt
  /\ settings (view o) !! "auto-load-images"
     = Some (VBool (negb (imgblock env)
                    || is_an_exception env (netloc parsed)
                    || is_an_exception env (netloc parsed ++ path parsed)))
  /\ zoom_level (view o)
     = (match zoom_levels env !! netloc parsed with
        | Some stored => stored * z / 100
        | None => 100 * z / 100
        end)%Q.
Proof.
  intros Hparse Hwindow. unfold zoom_window in Hwindow.
  unfold on_load_changed, py_urlparse, set_setting, update_zoom_level,
    adblock_exception.
  unfold_m. rewrite Hparse. cbn. rewrite Hparse, Hwindow. cbn.
  split; [reflexivity |]. split.
  - rewrite lookup_insert_eq. now rewrite orb_assoc.
  - destruct (zoom_levels env !! netloc parsed); reflexivity.
Qed.

Lemma committed_sets_images_and_zoom_witness :
  let o := run (on_load_changed COMMITTED) sample_env sample_view in
  res o = Ret tt
  /\ settings (view o) !! "auto-load-images" = Some (VBool true)
  /\ zoom_level (view o) = (150 * 2 / 100)%Q.
Proof.
  apply (committed_sets_images_and_zoom sample_env sample_view
           {| scheme := "https"; netloc := "www.example.com"; path := "/a";
              params := ""; query := ""; fragment := "" |} 2%Q).
  - reflexivity.
  - reflexivity.
Defined.

(** ** Waiting for the network *)

Lemma void_view_log {A B} (m : M A) (b : B) (env : Env) (w : WebView) :
  view (run (m;; mret b) env w) = view (run m env w)
  /\ log (run (m;; mret b) env w) = log (run m env w).
Proof.
  unfold_m. destruct (m env w) as [[a | e] w1 l1]; cbn; auto using app_nil_r.
Qed.






(** ** Load life cycle: finished *)

Lemma split_dot_nonempty (s : string) : split_dot s <> [].
Proof.
  destruct s as [| a s]; cbn; [discriminate |].
  destruct (Ascii.eqb a "."); [discriminate |].
  destruct (split_dot s); discriminate.
Qed.

Lemma split_dot_app (a b : string) :
  split_dot (a ++ String "." b) = (split_dot a ++ split_dot b)%list.
Proof.
  induction a as [| c a IH]; norm_str; cbn; [reflexivity |].
  destruct (Ascii.eqb c "."); [now rewrite IH |].
  rewrite IH. pose proof (split_dot_nonempty a) as Hne.
  destruct (split_dot a); [contradiction | reflexivity].
Qed.

Lemma split_dot_no_dot (s : string) :
  contains "." s = false -> split_dot s = [s].
Proof.
  induction s as [| c s IH]; cbn; [reflexivity |].
  intros Hno. apply orb_false_iff in Hno as [Hc Hs].
  rewrite Hc, (IH Hs). reflexivity.
Qed.

Lemma join_split_dot (s : string) : join_dot (split_dot s) = s.
Proof.
  induction s as [| c s IH]; cbn; [reflexivity |].
  pose proof (split_dot_nonempty s) as Hne.
  destruct (split_dot s) as [| w ws]; [contradiction |].
  destruct (Ascii.eqb_spec c ".") as [-> | _].
  - change (join_dot ("" :: w :: ws)) with ("" ++ "." ++ join_dot (w :: ws)).
    now rewrite IH.
  - destruct ws as [| w' ws]; cbn in *; [now rewrite IH |].
    rewrite <- IH. reflexivity.
Qed.

(** Stripping the last label: [".".join(host.split(".")[:-1])]. *)
Lemma strip_last_label_spec (h l : string) :
  contains "." l = false ->
  join_dot (but_last (split_dot (h ++ "." ++ l))) = h.
Proof.
  intros Hno. unfold but_last.
  change (h ++ "." ++ l) with (h ++ String "." l).
  rewrite split_dot_app, (split_dot_no_dot l Hno), removelast_last.
  apply join_split_dot.
Qed.



(** The end of a load, as the code has it.  When a load finishes and the ad-block setting
    is off, nothing happens: no script, no title.  When it is on: if the view
    has recorded no title, the title becomes the engine's page title, or the
    page URI when that is empty too, and [title-changed] is emitted; then the
    bundled scripts are searched for the one named after the exact host and,
    failing that, for the one named after the host without its last label;
    the first one found is run unless the host or host+path is an exception,
    and nothing else is run. *)
Theorem finished_title_and_block_script
    (env : Env) (w : WebView) (parsed : ParseResult) :
  urlparse (get_uri env) = Some parsed ->
  let host := netloc parsed in
  let exact := "adblock_" ++ host ++ ".js" in
  let stripped := "adblock_" ++ join_dot (but_last (split_dot host)) ++ ".js" in
  let new_title :=
    match get_title env with
    | Some t => if String.eqb t "" then get_uri env else t
    | None => get_uri env
    end in
  let o := run (on_load_changed FINISHED) env w in
  (adblock env = false -> o = MkOut (Ret tt) w [])
  /\ (adblock env = true ->
      res o = Ret tt
      /\ view o = (if String.eqb (title w) "" then set_title new_title w else w)
      /\ log o
         = ((if String.eqb (title w) ""
             then [Emit (TitleChanged new_title)] else [])
            ++ (if adblock_exception env parsed then []
                else if in_list exact (adblock_children env)
                     then [RunJavascriptFromGResource
                             ("/org/gnome/Eolie/adblock/" ++ exact)]
                     else if in_list stripped (adblock_children env)
                          then [RunJavascriptFromGResource
                                  ("/org/gnome/Eolie/adblock/" ++ stripped)]
                          else []))%list)
  /\ (forall h l, host = h ++ "." ++ l -> contains "." l = false ->
      stripped = "adblock_" ++ h ++ ".js").
Proof.
  intros Hparse host exact stripped new_title o.
  split; [| split].
  - intros Hoff. subst o.
    unfold on_load_changed, py_urlparse. unfold_m.
    rewrite Hparse. cbn. now rewrite Hoff.
  - intros Hon. subst o new_title exact stripped host.
    unfold on_load_changed, py_urlparse. unfold_m.
    rewrite Hparse. cbn. rewrite Hon. norm_str.
    destruct (String.eqb (title w) "");
      destruct (get_title env) as [t |]; cbn;
      try destruct (String.eqb t ""); cbn;
      destruct (in_list _ (adblock_children env)); cbn;
      try destruct (in_list _ (adblock_children env)); cbn;
      unfold_m; cbn;
      destruct (adblock_exception env parsed); cbn; auto.
  - intros h l Hhost Hno. subst stripped.
    now rewrite Hhost, (strip_last_label_spec h l Hno).
Qed.

Lemma finished_title_and_block_script_witness :
  let o := run (on_load_changed FINISHED) sample_env sample_view in
  res o = Ret tt
  /\ view o = set_title "https://www.example.com/a" sample_view
  /\ log o = [Emit (TitleChanged "https://www.example.com/a");
              RunJavascriptFromGResource
                "/org/gnome/Eolie/adblock/adblock_www.example.js"].
Proof.
  apply (finished_title_and_block_script sample_env sample_view
           {| scheme := "https"; netloc := "www.example.com"; path := "/a";
              params := ""; query := ""; fragment := "" |}).
  - reflexivity.
  - reflexivity.
Defined.

(** C8.  The code misses the claim when the ad-block setting is off: the
    title fallback, commented "We need to send a title if non exists", sits
    inside the ad-block test, so a load that finishes without any title
    observed gets no title and no [title-changed]. *)
Lemma finished_without_adblock_sends_no_title :
  let env := {| popupblock := true; imgblock := false; adblock := false;
                is_an_exception := is_an_exception sample_env;
                zoom_levels := zoom_levels sample_env;
                art_get_path := art_get_path sample_env;
                get_uri := "https://www.example.com/a";
                get_title := None;
                can_show_mime_type := can_show_mime_type sample_env;
                window_zoom_level := Some 2%Q;
                network_available := true;
                adblock_children := ["adblock_www.example.js"];
                error_css := ""; error_html := "";
                enable_plugins := true; min_font_size := 8;
                use_system_fonts := false;
                fonts := fonts sample_env;
                developer_extras := false;
                system_fonts := system_fonts sample_env;
                gettext := gettext sample_env;
                get_ftp_cmd := "nautilus";
                uri_unescape_string := uri_unescape_string sample_env;
                new_source_id := 1 |} in
  title sample_view = ""
  /\ run (on_load_changed FINISHED) env sample_view = MkOut (Ret tt) sample_view []
  /\ title (view (run (on_load_changed FINISHED) env sample_view)) = "".
Proof. repeat split. Qed.

(** ** URLs without query and fragment *)

Lemma break_at_app (p : ascii -> bool) (s : string) :
  (break_at p s).1 ++ (break_at p s).2 = s.
Proof.
  induction s as [| a s IH]; cbn; [reflexivity |].
  destruct (p a); cbn; [reflexivity |].
  destruct (break_at p s) as [l r]; cbn in *. norm_str. now rewrite IH.
Qed.

Lemma contains_break_at (c : ascii) (p : ascii -> bool) (s : string) :
  contains c s = false -> contains c (break_at p s).2 = false.
Proof.
  induction s as [| a s IH]; cbn; [reflexivity |].
  intros Hno. destruct (p a); cbn; [exact Hno |].
  apply orb_false_iff in Hno as [_ Hs].
  destruct (break_at p s) as [l r]; cbn in *. auto.
Qed.

Lemma partition_at_absent (c : ascii) (s : string) :
  contains c s = false -> partition_at c s = None.
Proof.
  induction s as [| a s IH]; cbn; [reflexivity |].
  intros Hno. apply orb_false_iff in Hno as [Ha Hs].
  now rewrite Ha, (IH Hs).
Qed.

Lemma replace_absent (old new s : string) :
  occurs old s = false -> replace_from old new 0 s = s.
Proof.
  induction s as [| a s IH]; cbn [replace_from occurs]; [reflexivity |].
  intros Hno. apply orb_false_iff in Hno as [Hhere Hlater].
  now rewrite Hhere, (IH Hlater).
Qed.

Lemma replace_https (rest : string) :
  occurs "https://" rest = false ->
  replace "https://" "accept://" ("https://" ++ rest) = "accept://" ++ rest.
Proof.
  intros Hno. unfold replace. norm_str. cbn.
  replace (String.prefix "" rest) with true by now destruct rest.
  now rewrite (replace_absent _ _ _ Hno).
Qed.

(** The parse of a URL that has a scheme and a ["//"] part but neither query
    nor fragment, for a scheme that takes no parameters. *)
Lemma split_netloc_app (rest : string) :
  split_netloc ("//" ++ rest)
  = (let nl := (break_at is_delim rest).1 in
     if (contains "[" nl && negb (contains "]" nl))
        || (contains "]" nl && negb (contains "[" nl))
     then None
     else Some (break_at is_delim rest)).
Proof.
  norm_str. cbn. now destruct (break_at is_delim rest).
Qed.

Lemma split_scheme_accept (rest : string) :
  split_scheme ("accept://" ++ rest) = ("accept", "//" ++ rest).
Proof. reflexivity. Qed.

Lemma split_scheme_https (rest : string) :
  split_scheme ("https://" ++ rest) = ("https", "//" ++ rest).
Proof. reflexivity. Qed.

Lemma split_on_absent (c : ascii) (s : string) :
  contains c s = false -> split_on c s = (s, "").
Proof. intros Hno. unfold split_on. now rewrite (partition_at_absent c s Hno). Qed.

Lemma urlparse_accept_plain (rest : string) :
  contains "?" rest = false ->
  contains "#" rest = false ->
  urlparse ("accept://" ++ rest)
  = match split_netloc ("//" ++ rest) with
    | None => None
    | Some (nl, url) =>
        Some {| scheme := "accept"; netloc := nl; path := url;
                params := ""; query := ""; fragment := "" |}
    end.
Proof.
  intros Hquery Hfragment. unfold urlparse.
  rewrite split_scheme_accept, split_netloc_app.
  pose proof (contains_break_at "?" is_delim rest Hquery) as Hq.
  pose proof (contains_break_at "#" is_delim rest Hfragment) as Hf.
  destruct (break_at is_delim rest) as [nl url]; cbn [fst snd] in *.
  destruct (_ || _); [reflexivity |].
  now rewrite (split_on_absent "#" url Hf), (split_on_absent "?" url Hq).
Qed.

Lemma urlparse_https_scheme (rest : string) (parsed : ParseResult) :
  urlparse ("https://" ++ rest) = Some parsed ->
  scheme parsed = "https"
  /\ exists url, split_netloc ("//" ++ rest) = Some (netloc parsed, url).
Proof.
  unfold urlparse. rewrite split_scheme_https.
  destruct (split_netloc ("//" ++ rest)) as [[nl url2] |]; [| discriminate].
  destruct (split_on "#" url2) as [url3 frag].
  destruct (split_on "?" url3) as [url4 qry].
  destruct (in_list "https" uses_params && contains ";" url4);
    [destruct (splitparams url4) as [url5 prm] |];
    intros [= <-]; cbn; eauto.
Qed.

Lemma accept_parse (rest : string) (parsed : ParseResult) :
  urlparse ("https://" ++ rest) = Some parsed ->
  contains "?" rest = false ->
  contains "#" rest = false ->
  exists accepted,
    urlparse ("accept://" ++ rest) = Some accepted
    /\ netloc accepted = netloc parsed
    /\ netloc accepted ++ path accepted = rest.
Proof.
  intros Hparse Hquery Hfragment.
  destruct (urlparse_https_scheme rest parsed Hparse) as (_ & url & Hnetloc).
  rewrite (urlparse_accept_plain rest Hquery Hfragment), Hnetloc.
  eexists. split; [reflexivity |]. split; [reflexivity |]. cbn.
  rewrite split_netloc_app in Hnetloc. cbn zeta in Hnetloc.
  destruct (_ || _); [discriminate |].
  injection Hnetloc as Hbreak.
  pose proof (break_at_app is_delim rest) as Happ.
  now rewrite Hbreak in Happ.
Qed.

Lemma load_uri_resets (env : Env) (w : WebView) (uri : string) (parsed : ParseResult) :
  urlparse uri = Some parsed ->
  In (scheme parsed) ["http"; "https"; "file"; "populars"] ->
  run (load_uri uri) env w
  = MkOut (Ret tt)
      (set_loaded_uri uri
         (set_insecure_content_detected (Some false) (set_bad_tls None w)))
      [CancellableCancel; CancellableReset; WebKitLoadUri uri].
Proof.
  intros Hparse Hscheme.
  unfold load_uri, py_urlparse. unfold_m. cbn.
  destruct (String.eqb_spec uri "about:blank") as [-> | _].
  - vm_compute in Hparse. injection Hparse as <-.
    cbn in Hscheme. intuition discriminate.
  - rewrite Hparse.
    destruct Hscheme as [<- | [<- | [<- | [<- | []]]]]; reflexivity.
Qed.

Lemma load_uri_accept (env : Env) (w : WebView) (uri : string) (parsed : ParseResult) :
  urlparse uri = Some parsed ->
  scheme parsed = "accept" ->
  run (load_uri uri) env w
  = MkOut (Ret tt) (set_loaded_uri uri w)
      [CancellableCancel; CancellableReset; WebKitLoadUri uri].
Proof.
  intros Hparse Hscheme.
  unfold load_uri, py_urlparse. unfold_m. cbn.
  destruct (String.eqb_spec uri "about:blank") as [-> | _].
  - vm_compute in Hparse. injection Hparse as <-. discriminate Hscheme.
  - rewrite Hparse, Hscheme. reflexivity.
Qed.

Ltac crush_branches :=
  repeat match goal with
    | |- context [match ?x with _ => _ end] =>
        lazymatch x with
        | context [match _ with _ => _ end] => fail
        | _ => destruct x eqn:?
        end; cbn
    end.

Lemma load_uri_bad_tls (env : Env) (w : WebView) (uri : string) :
  bad_tls (view (run (load_uri uri) env w)) = bad_tls w
  \/ bad_tls (view (run (load_uri uri) env w)) = None.
Proof.
  unfold load_uri, py_urlparse. unfold_m. cbn.
  crush_branches; auto.
Qed.

Lemma void_view {A} (m : M A) (env : Env) (w : WebView) :
  view (run (void m) env w) = view (run m env w).
Proof. apply (void_view_log m tt env w). Qed.

Lemma run_ask_bind {B} (k : Env -> M B) (env : Env) (w : WebView) :
  run (ask ≫= k) env w = run (k env) env w.
Proof. unfold_m. now destruct (k env env w). Qed.

Lemma run_get_bind {B} (k : WebView -> M B) (env : Env) (w : WebView) :
  run (get ≫= k) env w = run (k w) env w.
Proof. unfold_m. now destruct (k w env w). Qed.

Lemma check_for_network_bad_tls (env : Env) (w : WebView) (uri : string) :
  bad_tls (view (run (check_for_network uri) env w)) = bad_tls w
  \/ bad_tls (view (run (check_for_network uri) env w)) = None.
Proof.
  unfold check_for_network. rewrite run_ask_bind.
  destruct (network_available env); [| cbn; auto].
  destruct (void_view_log (B := option bool) (load_uri uri) None env w) as [-> _].
  apply load_uri_bad_tls.
Qed.

Lemma on_accept_scheme_bad_tls (env : Env) (w : WebView) (request_uri : string) :
  bad_tls (view (run (on_accept_scheme request_uri) env w)) = bad_tls w
  \/ bad_tls (view (run (on_accept_scheme request_uri) env w)) = None.
Proof.
  unfold on_accept_scheme, py_urlparse. rewrite run_get_bind.
  destruct (bad_tls w) as [cert |] eqn:Hcert; [| cbn; auto].
  destruct (urlparse request_uri) as [parsed |]; unfold_m; cbn; [| auto].
  pose proof (load_uri_bad_tls env w ("https://" ++ netloc parsed ++ path parsed)) as H.
  unfold run in H.
  destruct (load_uri _ env w) as [r w1 l1]; cbn in *. now rewrite <- Hcert.
Qed.

Lemma handle_bad_tls (env : Env) (w : WebView) (ev : Event) (c : Certificate) :
  bad_tls (view (run (handle ev) env w)) = Some c ->
  bad_tls w = Some c \/ exists uri errors, ev = LoadFailedTls uri c errors.
Proof.
  assert (Hkeep : forall m : M unit,
             bad_tls (view (run m env w)) = bad_tls w
             \/ bad_tls (view (run m env w)) = None ->
             bad_tls (view (run m env w)) = Some c ->
             bad_tls w = Some c \/ exists uri errors, ev = LoadFailedTls uri c errors).
  { intros m [-> | ->]; [auto | discriminate]. }
  destruct ev as [uri | uri | key value | | [uri | resource] | | request_uri | | name
                 | event | uri code | uri certificate errors | decision decision_type];
    cbn [handle run_callback]; rewrite ?void_view.
  - apply Hkeep, load_uri_bad_tls.
  - unfold set_popup_exception. unfold_m. cbn. auto.
  - unfold set_setting, set_system_fonts. unfold_m.
    destruct (String.eqb key "use-system-fonts"); cbn;
      [destruct (system_fonts env) as [[? ?] ?] |]; cbn; auto.
  - unfold update_zoom_level. unfold_m. crush_branches; auto.
  - destruct (check_for_network_bad_tls env w uri) as [-> | ->]; [auto | discriminate].
  - unfold_m. cbn. auto.
  - unfold on_insecure_content_detected. unfold_m. cbn. auto.
  - apply Hkeep, on_accept_scheme_bad_tls.
  - unfold on_uri_changed. unfold_m. crush_branches; auto.
  - unfold on_title_changed. unfold_m. crush_branches; auto.
  - unfold on_load_changed, py_urlparse, set_setting, update_zoom_level. unfold_m.
    destruct (urlparse (get_uri env)) as [parsed |]; [| cbn; auto].
    destruct event; cbn; crush_branches; unfold_m; cbn; crush_branches; auto.
  - unfold on_load_failed. unfold_m. crush_branches; auto.
  - unfold on_load_failed_tls. unfold_m. cbn. intros [= <-]. eauto.
  - unfold on_decide_policy, py_urlparse. unfold_m. crush_branches; auto.
Qed.

Lemma after_bad_tls (evs : list (Env * Event)) (w : WebView) (c : Certificate) :
  bad_tls (after evs w) = Some c ->
  bad_tls w = Some c
  \/ exists env uri errors, In (env, LoadFailedTls uri c errors) evs.
Proof.
  revert w. induction evs as [| [env ev] evs IH]; intros w; cbn [after]; [auto |].
  intros Hsome. destruct (IH _ Hsome) as [Hstep | (env' & uri & errors & Hin)].
  - destruct (handle_bad_tls env w ev c Hstep) as [Hw | (uri & errors & ->)];
      [auto | right; exists env, uri, errors; now left].
  - right. exists env', uri, errors. now right.
Qed.

Lemma load_uri_blank (env : Env) (w : WebView) :
  run (load_uri "about:blank") env w
  = MkOut (Ret tt) (set_loaded_uri "about:blank" w)
      [CancellableCancel; CancellableReset; LoadPlainText ""].
Proof. reflexivity. Qed.

Lemma load_uri_early_return
    (env : Env) (w : WebView) (uri : string) (parsed : ParseResult) :
  urlparse uri = Some parsed ->
  In (scheme parsed) ["ftp"; "javascript"] ->
  view (run (load_uri uri) env w) = w.
Proof.
  intros Hparse Hscheme.
  unfold load_uri, py_urlparse. unfold_m. cbn.
  destruct (String.eqb_spec uri "about:blank") as [-> | _].
  - vm_compute in Hparse. injection Hparse as <-.
    cbn in Hscheme. intuition discriminate.
  - rewrite Hparse.
    destruct Hscheme as [<- | [<- | []]]; cbn; [reflexivity |].
    now destruct (uri_unescape_string env uri).
Qed.

(** ** The pending certificate *)

(** C4, as the code has it.  Starting from a fresh view, the pending
    certificate is non-null only after a TLS failure, which stores the
    rejected certificate.  [load_uri] clears it when the URI's scheme is
    http, https, file or populars; in particular the reload issued by an
    accepted override clears it.  [load_uri] keeps it when the scheme is
    accept, and also for about:blank and for ftp and javascript URIs, where
    it returns early. *)
Theorem pending_certificate_lifetime :
  (forall (env0 : Env) (related : option RelatedView)
          (evs : list (Env * Event)) (c : Certificate),
      bad_tls (after evs (init env0 related)) = Some c ->
      exists env uri errors, In (env, LoadFailedTls uri c errors) evs)
  /\ (forall (env : Env) (w : WebView) (uri : string) (cert : Certificate)
             (errors : Z),
         bad_tls (view (run (on_load_failed_tls uri cert errors) env w))
         = Some cert)
  /\ (forall (env : Env) (w : WebView) (uri : string) (parsed : ParseResult),
         urlparse uri = Some parsed ->
         In (scheme parsed) ["http"; "https"; "file"; "populars"] ->
         bad_tls (view (run (load_uri uri) env w)) = None)
  /\ (forall (env : Env) (w : WebView) (request_uri : string)
             (accepted reload : ParseResult),
         urlparse request_uri = Some accepted ->
         urlparse ("https://" ++ netloc accepted ++ path accepted) = Some reload ->
         bad_tls (view (run (on_accept_scheme request_uri) env w)) = None)
  /\ (forall (env : Env) (w : WebView) (uri : string) (parsed : ParseResult),
         urlparse uri = Some parsed ->
         In (scheme parsed) ["accept"; "ftp"; "javascript"] ->
         bad_tls (view (run (load_uri uri) env w)) = bad_tls w)
  /\ (forall (env : Env) (w : WebView),
         bad_tls (view (run (load_uri "about:blank") env w)) = bad_tls w).
Proof.
  repeat apply conj.
  - intros env0 related evs c Hsome.
    destruct (after_bad_tls evs _ c Hsome) as [Hinit | Hin];
      [discriminate Hinit | exact Hin].
  - reflexivity.
  - intros env w uri parsed Hparse Hscheme.
    now rewrite (load_uri_resets env w uri parsed Hparse Hscheme).
  - intros env w request_uri accepted reload Haccepted Hreload.
    unfold on_accept_scheme, py_urlparse. rewrite run_get_bind.
    destruct (bad_tls w) as [cert |] eqn:Hcert; [| cbn; exact Hcert].
    rewrite Haccepted. unfold_m. cbn.
    destruct (urlparse_https_scheme _ reload Hreload) as [Hhttps _].
    assert (Hin : In (scheme reload) ["http"; "https"; "file"; "populars"])
      by (rewrite Hhttps; cbn; auto).
    pose proof (load_uri_resets env w _ reload Hreload Hin) as Hrun.
    unfold run in Hrun. now rewrite Hrun.
  - intros env w uri parsed Hparse [Haccept | Hearly].
    + now rewrite (load_uri_accept env w uri parsed Hparse (eq_sym Haccept)).
    + now rewrite (load_uri_early_return env w uri parsed Hparse Hearly).
  - reflexivity.
Qed.

Lemma pending_certificate_lifetime_witness :
  bad_tls (view (run (load_uri "https://example.com/") sample_env tls_failed_view))
  = None
  /\ bad_tls (view (run (on_accept_scheme "accept://example.com/a?b=1")
                      sample_env tls_failed_view)) = None
  /\ bad_tls (view (run (load_uri "accept://example.com/a") sample_env
                      tls_failed_view)) = Some sample_cert
  /\ exists env uri errors,
      In (env, LoadFailedTls uri sample_cert errors)
        [(sample_env, LoadUri "https://example.com/");
         (sample_env, LoadFailedTls "https://example.com/" sample_cert 8);
         (sample_env, LoadUri "about:blank")].
Proof.
  destruct pending_certificate_lifetime as (Honly & _ & Hclear & Hretry & Hkeep & _).
  repeat apply conj.
  - apply (Hclear sample_env tls_failed_view "https://example.com/"
             {| scheme := "https"; netloc := "example.com"; path := "/";
                params := ""; query := ""; fragment := "" |}).
    + reflexivity.
    + simpl. auto.
  - apply (Hretry sample_env tls_failed_view "accept://example.com/a?b=1"
             {| scheme := "accept"; netloc := "example.com"; path := "/a";
                params := ""; query := "b=1"; fragment := "" |}
             {| scheme := "https"; netloc := "example.com"; path := "/a";
                params := ""; query := ""; fragment := "" |}).
    + reflexivity.
    + reflexivity.
  - apply (Hkeep sample_env tls_failed_view "accept://example.com/a"
             {| scheme := "accept"; netloc := "example.com"; path := "/a";
                params := ""; query := ""; fragment := "" |}).
    + reflexivity.
    + simpl. auto.
  - apply (Honly sample_env None). reflexivity.
Defined.

(** C4, as stated, fails: after a TLS failure, loading about:blank (a
    non-accept URI that is no error page) keeps the pending certificate, and
    so does a load the engine starts on its own, of which the view only
    learns through [__on_load_changed]. *)
Lemma blank_load_keeps_certificate :
  bad_tls tls_failed_view = Some sample_cert
  /\ (scheme <$> urlparse "about:blank") = Some "about"
  /\ log (run (load_uri "about:blank") sample_env tls_failed_view)
     = [CancellableCancel; CancellableReset; LoadPlainText ""]
  /\ bad_tls (view (run (load_uri "about:blank") sample_env tls_failed_view))
     = Some sample_cert
  /\ bad_tls (view (run (on_load_changed STARTED) sample_env tls_failed_view))
     = Some sample_cert.
Proof. repeat split. Qed.

(** ** The TLS override *)

Lemma tls_error_fallback (errors : Z) :
  ~ In errors [TlsCertificateFlags.BAD_IDENTITY; TlsCertificateFlags.EXPIRED;
               TlsCertificateFlags.UNKNOWN_CA; TlsCertificateFlags.GENERIC_ERROR;
               TlsCertificateFlags.REVOKED; TlsCertificateFlags.INSECURE;
               TlsCertificateFlags.NOT_ACTIVATED] ->
  tls_error errors = "The identity of this website has not been verified".
Proof.
  intros Hnot. apply not_in_codes in Hnot. cbn in Hnot.
  repeat (apply orb_false_iff in Hnot as [?Hflag Hnot]).
  unfold tls_error.
  unfold TlsCertificateFlags.BAD_IDENTITY, TlsCertificateFlags.EXPIRED,
    TlsCertificateFlags.UNKNOWN_CA, TlsCertificateFlags.GENERIC_ERROR,
    TlsCertificateFlags.REVOKED, TlsCertificateFlags.INSECURE,
    TlsCertificateFlags.NOT_ACTIVATED in *.
  now rewrite Hflag, Hflag0, Hflag1, Hflag2, Hflag3, Hflag4, Hflag5.
Qed.

(** The TLS failure page and the override on a URI without query and
    fragment.  A TLS failure stores the certificate and shows
    the error page with the reason that belongs to the failure flag: one of
    seven for the seven single flags, the unverified-identity text for any
    other value.  The page's action loads the URI with its [https://]
    replaced by [accept://].  When the failed URI has neither a query nor a
    fragment (nor a second [https://] in it), accepting registers the
    stored certificate for the URI's network location and loads the original
    HTTPS URI again, which clears the pending certificate. *)
Theorem tls_failure_and_override
    (env : Env) (w : WebView) (cert : Certificate) (errors : Z)
    (rest : string) (parsed : ParseResult) :
  urlparse ("https://" ++ rest) = Some parsed ->
  contains "?" rest = false ->
  contains "#" rest = false ->
  occurs "https://" rest = false ->
  let uri := "https://" ++ rest in
  let o1 := run (on_load_failed_tls uri cert errors) env w in
  let o2 := run (on_accept_scheme ("accept://" ++ rest)) env (view o1) in
  ((errors = TlsCertificateFlags.BAD_IDENTITY ->
    tls_error errors = "The certificate does not match this website")
   /\ (errors = TlsCertificateFlags.EXPIRED ->
       tls_error errors = "The certificate has expired")
   /\ (errors = TlsCertificateFlags.UNKNOWN_CA ->
       tls_error errors = "The signing certificate authority is not known")
   /\ (errors = TlsCertificateFlags.GENERIC_ERROR ->
       tls_error errors = "The certificate contains errors")
   /\ (errors = TlsCertificateFlags.REVOKED ->
       tls_error errors = "The certificate has been revoked")
   /\ (errors = TlsCertificateFlags.INSECURE ->
       tls_error errors
       = "The certificate is signed using a weak signature algorithm")
   /\ (errors = TlsCertificateFlags.NOT_ACTIVATED ->
       tls_error errors
       = "The certificate activation time is still in the future")
   /\ (~ In errors
         [TlsCertificateFlags.BAD_IDENTITY; TlsCertificateFlags.EXPIRED;
          TlsCertificateFlags.UNKNOWN_CA; TlsCertificateFlags.GENERIC_ERROR;
          TlsCertificateFlags.REVOKED; TlsCertificateFlags.INSECURE;
          TlsCertificateFlags.NOT_ACTIVATED] ->
       tls_error errors = "The identity of this website has not been verified"))
  /\ res o1 = Ret true
  /\ bad_tls (view o1) = Some cert
  /\ (exists args : list string,
         log o1 = [LoadHtml (error_html env) args]
         /\ args !! 2%nat = Some ("load_uri('accept://" ++ rest ++ "')")
         /\ args !! 5%nat = Some (gettext env (tls_error errors)))
  /\ log o2 = [AllowTlsCertificateForHost cert (netloc parsed);
               CancellableCancel; CancellableReset; WebKitLoadUri uri]
  /\ loaded_uri (view o2) = uri
  /\ bad_tls (view o2) = None.
Proof.
  intros Hparse Hquery Hfragment Honce uri o1 o2.
  split.
  { repeat split; try (intros ->; reflexivity). apply tls_error_fallback. }
  assert (Ho1 : view o1 = set_bad_tls (Some cert) w) by reflexivity.
  split; [reflexivity |]. split; [reflexivity |]. split.
  { eexists. split; [reflexivity |]. split; [| reflexivity].
    cbn. subst uri. rewrite (replace_https rest Honce). reflexivity. }
  destruct (accept_parse rest parsed Hparse Hquery Hfragment)
    as (accepted & Haccepted & Hnetloc & Hrest).
  destruct (urlparse_https_scheme rest parsed Hparse) as [Hhttps _].
  assert (Hin : In (scheme parsed) ["http"; "https"; "file"; "populars"])
    by (rewrite Hhttps; cbn; auto).
  pose proof (load_uri_resets env (view o1) uri parsed Hparse Hin) as Hload.
  assert (Ho2 : o2 = MkOut (Ret tt)
                       (set_loaded_uri uri
                          (set_insecure_content_detected (Some false)
                             (set_bad_tls None (view o1))))
                       [AllowTlsCertificateForHost cert (netloc parsed);
                        CancellableCancel; CancellableReset; WebKitLoadUri uri]).
  { subst o2. unfold on_accept_scheme, py_urlparse. rewrite run_get_bind.
    rewrite Ho1 at 1. cbn [bad_tls set_bad_tls].
    rewrite Haccepted. unfold_m. cbn. rewrite Hrest, Hnetloc.
    unfold run in Hload. fold uri. now rewrite Hload. }
  rewrite Ho2. repeat split.
Qed.

Lemma tls_failure_and_override_witness :
  let o1 := run (on_load_failed_tls "https://example.com/a" sample_cert
                   TlsCertificateFlags.EXPIRED) sample_env sample_view in
  let o2 := run (on_accept_scheme "accept://example.com/a") sample_env (view o1) in
  tls_error TlsCertificateFlags.EXPIRED = "The certificate has expired"
  /\ log o2 = [AllowTlsCertificateForHost sample_cert "example.com";
               CancellableCancel; CancellableReset;
               WebKitLoadUri "https://example.com/a"]
  /\ bad_tls (view o2) = None.
Proof.
  destruct (tls_failure_and_override sample_env sample_view sample_cert
              TlsCertificateFlags.EXPIRED "example.com/a"
              {| scheme := "https"; netloc := "example.com"; path := "/a";
                 params := ""; query := ""; fragment := "" |})
    as ((_ & Hexpired & _) & _ & _ & _ & Hlog & _ & Hcleared).
  - reflexivity.
  - reflexivity.
  - reflexivity.
  - reflexivity.
  - split; [apply Hexpired; reflexivity |]. split; [exact Hlog | exact Hcleared].
Defined.

(** C5.  The code misses the claim on a URI with a query: after the TLS
    failure on https://example.com/a?b=1 the page's action asks for
    accept://example.com/a?b=1, and accepting registers the certificate and
    loads https://example.com/a, which is not the original URI.  On a URI
    with a port, the certificate is registered for host and port together. *)
Lemma override_drops_query :
  let uri := "https://example.com/a?b=1" in
  let o1 := run (on_load_failed_tls uri sample_cert TlsCertificateFlags.EXPIRED)
              sample_env sample_view in
  let o2 := run (on_accept_scheme (replace "https://" "accept://" uri))
              sample_env (view o1) in
  bad_tls (view o1) = Some sample_cert
  /\ log o2 = [AllowTlsCertificateForHost sample_cert "example.com";
               CancellableCancel; CancellableReset;
               WebKitLoadUri "https://example.com/a"]
  /\ ~ In (WebKitLoadUri uri) (log o2)
  /\ loaded_uri (view o2) <> uri
  /\ log (run (on_accept_scheme "accept://example.com:8443/a") sample_env (view o1))
     = [AllowTlsCertificateForHost sample_cert "example.com:8443";
        CancellableCancel; CancellableReset;
        WebKitLoadUri "https://example.com:8443/a"].
Proof.
  repeat split.
  - vm_compute. intuition discriminate.
  - vm_compute. discriminate.
Qed.

(** * Further properties *)

(** ** Navigation policy: the whole table *)

(** X1.  Whatever the request, the policy handler ends in one of four ways:
    it returns [False] after exactly one [use] or [download]; it returns
    [True] after emitting [new-page] for the request URI and ignoring the
    decision; it returns nothing and does nothing (only for a new-window
    request with mouse button 0); or it raises [ValueError] before any
    effect (only when that request's URI does not parse). *)
Theorem decide_policy_outcomes
    (env : Env) (w : WebView) (d : PolicyDecision) (t : PolicyDecisionType) :
  let o := run (on_decide_policy d t) env w in
  (res o = Ret (Some false)
   /\ (log o = [DecisionUse] \/ log o = [DecisionDownload]))
  \/ (res o = Ret (Some true)
      /\ exists popup,
          log o = [Emit (NewPage (request_uri d) popup); DecisionIgnore])
  \/ (res o = Ret None /\ log o = []
      /\ t = NEW_WINDOW_ACTION /\ mouse_button d = 0%N)
  \/ (res o = Raise ValueError /\ log o = [] /\ view o = w
      /\ t = NEW_WINDOW_ACTION /\ mouse_button d = 0%N
      /\ urlparse (request_uri d) = None).
Proof.
  unfold on_decide_policy, py_urlparse. unfold_m.
  destruct t; cbn;
    destruct (can_show_mime_type env (response_mime_type d));
    destruct (mouse_button d) as [| [? | ? |]] eqn:Hbutton; cbn;
    destruct (urlparse (request_uri d)) eqn:Hparse; cbn;
    try destruct (_ || _); cbn; eauto 10.
Qed.

(** X2.  With a mouse button other than 0 the settings and the exception
    registry are never consulted: button 1 opens a new-window request as a
    popup and uses any other request in place; every other button opens the
    request in a new view that is not a popup, whatever the kind of
    request. *)
Theorem clicked_request_ignores_blocking
    (env : Env) (w : WebView) (d : PolicyDecision) (t : PolicyDecisionType) :
  t <> RESPONSE ->
  mouse_button d <> 0%N ->
  run (on_decide_policy d t) env w
  = (if (mouse_button d =? 1)%N then
       if PolicyDecisionType_eqb t NEW_WINDOW_ACTION
       then MkOut (Ret (Some true)) (set_loaded_uri (request_uri d) w)
              [Emit (NewPage (request_uri d) true); DecisionIgnore]
       else MkOut (Ret (Some false)) (set_loaded_uri (request_uri d) w)
              [DecisionUse]
     else MkOut (Ret (Some true)) w
            [Emit (NewPage (request_uri d) false); DecisionIgnore]).
Proof.
  intros Hkind Hbutton. unfold on_decide_policy. unfold_m.
  destruct t; try contradiction; cbn;
    destruct (mouse_button d) as [| [? | ? |]]; try contradiction; reflexivity.
Qed.

Lemma clicked_request_ignores_blocking_witness :
  run (on_decide_policy pdf_response NEW_WINDOW_ACTION) sample_env sample_view
  = MkOut (Ret (Some true)) sample_view
      [Emit (NewPage "https://a.example/x.pdf" false); DecisionIgnore].
Proof.
  apply (clicked_request_ignores_blocking sample_env sample_view pdf_response
           NEW_WINDOW_ACTION).
  - discriminate.
  - discriminate.
Defined.

(** X3.  A new-window request with mouse button 0 opens a popup exactly
    when the host or host+path is an exception, or popup blocking is off, or
    the navigation type is a link click or a form (re)submission. *)
Theorem scripted_popup_opens_iff
    (env : Env) (w : WebView) (d : PolicyDecision) (parsed : ParseResult) :
  mouse_button d = 0%N ->
  urlparse (request_uri d) = Some parsed ->
  let o := run (on_decide_policy d NEW_WINDOW_ACTION) env w in
  (In (Emit (NewPage (request_uri d) true)) (log o)
   <-> (adblock_exception env parsed = true
        \/ popupblock env = false
        \/ In (navigation_type d) [LINK_CLICKED; FORM_SUBMITTED; FORM_RESUBMITTED]))
  /\ (In (Emit (NewPage (request_uri d) true)) (log o) ->
      o = MkOut (Ret (Some true)) w
            [Emit (NewPage (request_uri d) true); DecisionIgnore]).
Proof.
  intros Hbutton Hparse.
  unfold on_decide_policy, py_urlparse. unfold_m.
  rewrite Hbutton, Hparse. cbn.
  destruct (adblock_exception env parsed); cbn.
  { split; [split |]; auto. }
  destruct (popupblock env); cbn.
  2: { split; [split |]; auto. }
  destruct (navigation_type d); cbn;
    (split; [split |]);
    try (intros [H | [H | H]]); try (intros []); try discriminate;
    cbn in *; intuition (try discriminate; auto).
Qed.

Lemma scripted_popup_opens_iff_witness :
  In (Emit (NewPage "https://ads.example/x" true))
    (log (run (on_decide_policy
                 {| response_mime_type := ""; request_uri := "https://ads.example/x";
                    mouse_button := 0; navigation_type := LINK_CLICKED |}
                 NEW_WINDOW_ACTION) sample_env sample_view)).
Proof.
  apply (scripted_popup_opens_iff sample_env sample_view
           {| response_mime_type := ""; request_uri := "https://ads.example/x";
              mouse_button := 0; navigation_type := LINK_CLICKED |}
           {| scheme := "https"; netloc := "ads.example"; path := "/x";
              params := ""; query := ""; fragment := "" |}).
  - reflexivity.
  - reflexivity.
  - right. right. simpl. auto.
Defined.

(** ** Loading a URI *)


(** X4.  A URI other than about:blank whose scheme is none of http, https,
    file, populars, accept, ftp and javascript (a bare host name, say) is
    loaded with [http://] put in front, and that is what [loaded_uri]
    records; nothing else of the view changes, the pending certificate
    included. *)
Theorem load_uri_adds_http
    (env : Env) (w : WebView) (uri : string) (parsed : ParseResult) :
  urlparse uri = Some parsed ->
  uri <> "about:blank" ->
  in_list (scheme parsed)
    ["http"; "https"; "file"; "populars"; "accept"; "ftp"; "javascript"]
  = false ->
  run (load_uri uri) env w
  = MkOut (Ret tt) (set_loaded_uri ("http://" ++ uri) w)
      [CancellableCancel; CancellableReset; WebKitLoadUri ("http://" ++ uri)].
Proof.
  intros Hparse Hblank Hscheme. cbn in Hscheme.
  repeat (apply orb_false_iff in Hscheme as [?Hs Hscheme]).
  apply String.eqb_neq in Hblank.
  unfold load_uri, py_urlparse. unfold_m. cbn.
  rewrite Hblank, Hparse. cbn. rewrite Hs, Hs0, Hs1, Hs2, Hs3, Hs4, Hs5. reflexivity.
Qed.

Lemma load_uri_adds_http_witness :
  run (load_uri "example.com/x") sample_env tls_failed_view
  = MkOut (Ret tt) (set_loaded_uri "http://example.com/x" tls_failed_view)
      [CancellableCancel; CancellableReset; WebKitLoadUri "http://example.com/x"]
  /\ run (load_uri "about:config") sample_env tls_failed_view
     = MkOut (Ret tt) (set_loaded_uri "http://about:config" tls_failed_view)
         [CancellableCancel; CancellableReset; WebKitLoadUri "http://about:config"].
Proof.
  split.
  - apply (load_uri_adds_http sample_env tls_failed_view "example.com/x"
             {| scheme := ""; netloc := ""; path := "example.com/x";
                params := ""; query := ""; fragment := "" |}).
    + reflexivity.
    + discriminate.
    + reflexivity.
  - apply (load_uri_adds_http sample_env tls_failed_view "about:config"
             {| scheme := "about"; netloc := ""; path := "config";
                params := ""; query := ""; fragment := "" |}).
    + reflexivity.
    + discriminate.
    + reflexivity.
Defined.

(** X5.  [load_uri] always cancels and resets the cancellable first.  When
    it hands a URI to the engine, that URI is the given one or the given one
    behind [http://], and [loaded_uri] records exactly it.  When it neither
    loads a URI nor the blank page, the view is left as it was. *)
Theorem load_uri_records_what_it_loads (env : Env) (w : WebView) (uri : string) :
  let o := run (load_uri uri) env w in
  (exists rest, log o = CancellableCancel :: CancellableReset :: rest)
  /\ (forall u, In (WebKitLoadUri u) (log o) ->
      loaded_uri (view o) = u /\ (u = uri \/ u = "http://" ++ uri))
  /\ ((forall u, ~ In (WebKitLoadUri u) (log o)) ->
      ~ In (LoadPlainText "") (log o) -> view o = w).
Proof.
  unfold load_uri, py_urlparse. unfold_m. cbn.
  crush_branches; (split; [eauto |]); split.
  all: try (intros u Hin; cbn in Hin;
            repeat (destruct Hin as [Hin | Hin]; try discriminate Hin);
            try contradiction; injection Hin as <-; now auto).
  all: intros Hnone Hblank; try reflexivity; exfalso.
  all: first [apply Hblank; cbn; now auto | eapply Hnone; cbn; now eauto].
Qed.




Lemma load_uri_records_what_it_loads_witness :
  loaded_uri (view (run (load_uri "https://example.com/") sample_env sample_view))
  = "https://example.com/".
Proof.
  apply (load_uri_records_what_it_loads sample_env sample_view "https://example.com/").
  simpl. auto.
Defined.

(** ** What a load leaves alone *)

Lemma load_frame_refl (w : WebView) : load_frame w w.
Proof. repeat split. Qed.

Lemma load_uri_frame (env : Env) (w : WebView) (uri : string) :
  load_frame w (view (run (load_uri uri) env w)).
Proof.
  unfold load_uri, py_urlparse. unfold_m. cbn.
  crush_branches; repeat split.
Qed.

Lemma check_for_network_frame (env : Env) (w : WebView) (uri : string) :
  load_frame w (view (run (check_for_network uri) env w)).
Proof.
  unfold check_for_network. rewrite run_ask_bind.
  destruct (network_available env); [| apply load_frame_refl].
  destruct (void_view_log (B := option bool) (load_uri uri) None env w) as [-> _].
  apply load_uri_frame.
Qed.

Lemma on_accept_scheme_frame (env : Env) (w : WebView) (request_uri : string) :
  load_frame w (view (run (on_accept_scheme request_uri) env w)).
Proof.
  unfold on_accept_scheme, py_urlparse. rewrite run_get_bind.
  destruct (bad_tls w) as [cert |]; [| apply load_frame_refl].
  destruct (urlparse request_uri) as [parsed |]; unfold_m; cbn;
    [| apply load_frame_refl].
  pose proof (load_uri_frame env w ("https://" ++ netloc parsed ++ path parsed)) as H.
  unfold run in H.
  now destruct (load_uri _ env w) as [r w1 l1].
Qed.

(** ** Load life cycle: the popup exception, the title, the readable content *)

(** X7.  The popup exception set by [set_popup_exception] stays until a
    load starts: of all events only [set_popup_exception] assigns it and
    only a started load clears it (and not even that one when the page URI
    does not parse, since the handler raises first). *)
Theorem popup_exception_lifetime (env : Env) (w : WebView) (ev : Event) :
  popup_exception (view (run (handle ev) env w))
  = match ev with
    | SetPopupException uri => Some uri
    | LoadChanged STARTED =>
        match urlparse (get_uri env) with
        | Some _ => None
        | None => popup_exception w
        end
    | _ => popup_exception w
    end.
Proof.
  destruct ev as [uri | uri | key value | | [uri | resource] | | request_uri | | name
                 | event | uri code | uri certificate errors | decision decision_type];
    cbn [handle run_callback]; rewrite ?void_view.
  - apply (load_uri_frame env w uri).
  - reflexivity.
  - unfold set_setting, set_system_fonts. unfold_m.
    destruct (String.eqb key "use-system-fonts"); cbn;
      [destruct (system_fonts env) as [[? ?] ?] |]; reflexivity.
  - unfold update_zoom_level. unfold_m. crush_branches; reflexivity.
  - apply (check_for_network_frame env w uri).
  - reflexivity.
  - reflexivity.
  - apply (on_accept_scheme_frame env w request_uri).
  - unfold on_uri_changed. unfold_m. crush_branches; reflexivity.
  - unfold on_title_changed. unfold_m. crush_branches; reflexivity.
  - unfold on_load_changed, py_urlparse, set_setting, update_zoom_level. unfold_m.
    destruct (urlparse (get_uri env)) as [parsed |]; [| now destruct event].
    destruct event; cbn; crush_branches; unfold_m; cbn; crush_branches; reflexivity.
  - unfold on_load_failed. unfold_m. crush_branches; reflexivity.
  - reflexivity.
  - unfold on_decide_policy, py_urlparse. unfold_m. crush_branches; reflexivity.
Qed.

Lemma prefix_readable (content : string) :
  String.prefix readable_prefix (readable_prefix ++ content) = true.
Proof. unfold readable_prefix. norm_str. cbn. now destruct content. Qed.

Lemma replace_readable (content : string) :
  occurs readable_prefix content = false ->
  replace readable_prefix "" (readable_prefix ++ content) = content.
Proof.
  intros Hno. unfold replace.
  pose proof (prefix_readable content) as Hprefix.
  unfold readable_prefix in *. revert Hprefix. norm_str. intros Hprefix.
  cbn [replace_from]. rewrite Hprefix. cbn [String.length Nat.sub replace_from].
  norm_str. now apply replace_absent.
Qed.

(** X8.  A title that starts with the Readability prefix is not a title: it
    is stored, prefix removed, as the readable content, [readable] is
    emitted, and the view's title, its timer and everything else stay as
    they were; no [title-changed] is emitted. *)
Theorem readable_content_handover
    (env : Env) (w : WebView) (content : string) :
  get_title env = Some (readable_prefix ++ content) ->
  readable_prefix ++ content <> title w ->
  occurs readable_prefix content = false ->
  run (on_title_changed "title") env w
  = MkOut (Ret tt) (set_readable_content content w) [Emit Readable].
Proof.
  intros Htitle Hnew Hcontent.
  unfold on_title_changed. unfold_m. cbn. rewrite Htitle.
  apply String.eqb_neq in Hnew. rewrite Hnew.
  replace (String.eqb (readable_prefix ++ content) "") with false
    by (symmetry; unfold readable_prefix; norm_str; reflexivity).
  cbn [orb]. rewrite prefix_readable. cbn.
  now rewrite (replace_readable content Hcontent).
Qed.

Lemma readable_content_handover_witness :
  let env := {| popupblock := true; imgblock := false; adblock := true;
                is_an_exception := is_an_exception sample_env;
                zoom_levels := zoom_levels sample_env;
                art_get_path := art_get_path sample_env;
                get_uri := "https://www.example.com/a";
                get_title := Some (readable_prefix ++ "<p>text</p>");
                can_show_mime_type := can_show_mime_type sample_env;
                window_zoom_level := Some 2%Q;
                network_available := true;
                adblock_children := [];
                error_css := ""; error_html := "";
                enable_plugins := true; min_font_size := 8;
                use_system_fonts := false;
                fonts := fonts sample_env;
                developer_extras := false;
                system_fonts := system_fonts sample_env;
                gettext := gettext sample_env;
                get_ftp_cmd := "nautilus";
                uri_unescape_string := uri_unescape_string sample_env;
                new_source_id := 1 |} in
  run (on_title_changed "title") env sample_view
  = MkOut (Ret tt) (set_readable_content "<p>text</p>" sample_view) [Emit Readable].
Proof.
  intros env.
  apply (readable_content_handover env sample_view "<p>text</p>").
  - reflexivity.
  - discriminate.
  - reflexivity.
Defined.

(** X9.  An ordinary new title is recorded and announced once: a second
    notification of the same title does nothing.  The Readability script is
    scheduled (after 2000 ms) only when no such timer is noted in the view,
    and one is noted afterwards; a URI change forgets the note, unless the
    new URI is about:blank. *)
Theorem title_change_once
    (env : Env) (w : WebView) (t : string) :
  get_title env = Some t ->
  t <> "" ->
  t <> title w ->
  String.prefix readable_prefix t = false ->
  let o := run (on_title_changed "title") env w in
  title (view o) = t
  /\ js_timeout (view o) <> None
  /\ log o
     = Emit (TitleChanged t)
       :: match js_timeout w with
          | None => [TimeoutAdd 2000
                       (JavascriptFromGResource "/org/gnome/Eolie/Readability.js")]
          | Some _ => []
          end
  /\ run (on_title_changed "title") env (view o) = MkOut (Ret tt) (view o) []
  /\ js_timeout (view (run on_uri_changed env (view o)))
     = (if String.eqb (get_uri env) "about:blank"
        then js_timeout (view o) else None).
Proof.
  intros Htitle Hnonempty Hnew Hordinary.
  apply String.eqb_neq in Hnonempty, Hnew.
  unfold on_title_changed, on_uri_changed. unfold_m. cbn.
  rewrite Htitle, Hnonempty, Hnew, Hordinary. cbn.
  destruct (js_timeout w) as [id |] eqn:Htimer; cbn;
    rewrite ?Htitle, ?Hnonempty, ?String.eqb_refl; cbn;
    destruct (String.eqb (get_uri env) "about:blank"); cbn;
    repeat split; congruence.
Qed.

Lemma title_change_once_witness :
  let env := {| popupblock := true; imgblock := false; adblock := true;
                is_an_exception := is_an_exception sample_env;
                zoom_levels := zoom_levels sample_env;
                art_get_path := art_get_path sample_env;
                get_uri := "https://www.example.com/a";
                get_title := Some "Example";
                can_show_mime_type := can_show_mime_type sample_env;
                window_zoom_level := Some 2%Q;
                network_available := true;
                adblock_children := [];
                error_css := ""; error_html := "";
                enable_plugins := true; min_font_size := 8;
                use_system_fonts := false;
                fonts := fonts sample_env;
                developer_extras := false;
                system_fonts := system_fonts sample_env;
                gettext := gettext sample_env;
                get_ftp_cmd := "nautilus";
                uri_unescape_string := uri_unescape_string sample_env;
                new_source_id := 7 |} in
  log (run (on_title_changed "title") env sample_view)
  = [Emit (TitleChanged "Example");
     TimeoutAdd 2000 (JavascriptFromGResource "/org/gnome/Eolie/Readability.js")].
Proof.
  intros env.
  apply (title_change_once env sample_view "Example").
  - reflexivity.
  - discriminate.
  - discriminate.
  - reflexivity.
Defined.

(** ** Zoom and settings: edge cases *)

(** X10.  [update_zoom_level] without an ancestor window prints the
    exception and applies the stored zoom (100 when the host has none)
    without the window's factor.  When the page URI does not parse, the
    exception is printed too, but then no zoom was computed: the method
    raises [UnboundLocalError] and the zoom level stays as it was. *)
Theorem update_zoom_level_degraded (env : Env) (w : WebView) :
  (forall parsed,
      urlparse (get_uri env) = Some parsed ->
      zoom_window env w = None ->
      run update_zoom_level env w
      = let stored := default 100%Q (zoom_levels env !! netloc parsed) in
        MkOut (Ret tt) (set_zoom_level (stored / 100)%Q w)
          [Print "WebView::update_zoom_level()" (LogExn AttributeError);
           Debug "Update zoom level: %s" (LogNum stored)])
  /\ (urlparse (get_uri env) = None ->
      run update_zoom_level env w
      = MkOut (Raise UnboundLocalError) w
          [Print "WebView::update_zoom_level()" (LogExn ValueError)]).
Proof.
  unfold zoom_window, update_zoom_level. unfold_m. split.
  - intros parsed Hparse Hwindow. rewrite Hparse, Hwindow. reflexivity.
  - intros Hparse. rewrite Hparse. reflexivity.
Qed.

Lemma update_zoom_level_degraded_witness :
  zoom_level
    (view (run update_zoom_level sample_env
             (init sample_env (Some {| related_window_zoom_level := None |}))))
  = (150 / 100)%Q.
Proof.
  destruct (update_zoom_level_degraded sample_env
              (init sample_env (Some {| related_window_zoom_level := None |})))
    as [Hwindow _].
  rewrite (Hwindow {| scheme := "https"; netloc := "www.example.com"; path := "/a";
                      params := ""; query := ""; fragment := "" |});
    reflexivity.
Defined.

(** X11.  [set_setting] stores the value under the key and leaves every
    other setting alone, except for the key [use-system-fonts]: that key is
    not stored at all and its value is ignored; instead the three font
    families are set from the desktop's fonts. *)
Theorem set_setting_lookup
    (env : Env) (w : WebView) (key : string) (value : Value) :
  let w' := view (run (set_setting key value) env w) in
  (key <> "use-system-fonts" ->
   settings w' !! key = Some value
   /\ forall other, other <> key -> settings w' !! other = settings w !! other)
  /\ (key = "use-system-fonts" ->
      settings w' !! "monospace-font-family" = Some (VStr (system_fonts env).1.1)
      /\ settings w' !! "sans-serif-font-family" = Some (VStr (system_fonts env).1.2)
      /\ settings w' !! "serif-font-family" = Some (VStr (system_fonts env).2)
      /\ forall other,
          ~ In other ["monospace-font-family"; "sans-serif-font-family";
                      "serif-font-family"] ->
          settings w' !! other = settings w !! other).
Proof.
  unfold set_setting, set_system_fonts. unfold_m. split.
  - intros Hkey. apply String.eqb_neq in Hkey. rewrite Hkey. cbn. split.
    + apply lookup_insert_eq.
    + intros other Hother. now apply lookup_insert_ne.
  - intros ->. cbn. destruct (system_fonts env) as [[monospace document] font]. cbn.
    repeat split.
    + now rewrite lookup_insert_ne, lookup_insert_ne, lookup_insert_eq.
    + now rewrite lookup_insert_ne, lookup_insert_eq.
    + apply lookup_insert_eq.
    + intros other Hother. cbn in Hother.
      rewrite !lookup_insert_ne; [reflexivity | | |]; intros <-; tauto.
Qed.

Lemma set_setting_lookup_witness :
  settings (view (run (set_setting "enable-webgl" (VBool false))
                    sample_env sample_view)) !! "enable-webgl"
  = Some (VBool false)
  /\ settings (view (run (set_setting "use-system-fonts" (VBool false))
                       sample_env sample_view)) !! "sans-serif-font-family"
     = Some (VStr "Cantarell 11").
Proof.
  split.
  - apply (set_setting_lookup sample_env sample_view "enable-webgl" (VBool false)).
    discriminate.
  - apply (set_setting_lookup sample_env sample_view "use-system-fonts" (VBool false)).
    reflexivity.
Defined.

(** ** Error pages *)

(** X12.  The page shown for a recognized load failure always carries a
    retry action that loads the failed URI again, and never changes the
    view.  With the network up the retry button is shown and the cached
    [preview] and [start] thumbnails of the URI are deleted, in this order;
    with the network down the button is hidden ([display: none]) and
    nothing is deleted. *)
Theorem load_failed_page
    (env : Env) (w : WebView) (uri : string) (code : Z) :
  In code [2; 4; 44]%Z ->
  exists args,
    run (on_load_failed uri code) env w
    = MkOut (Ret true) w
        (LoadHtml (error_html env) args
         :: (if network_available env
             then [FileDelete (art_get_path env uri "preview");
                   FileDelete (art_get_path env uri "start")]
             else [TimeoutAdd 1000 (CheckForNetwork uri)]))
    /\ length args = 9%nat
    /\ args !! 1%nat
       = Some (replace "@button@"
                 (if network_available env then "" else "display: none")
                 (error_css env))
    /\ args !! 2%nat = Some (format1 "load_uri('%s')" uri).
Proof.
  intros Hcode. apply in_codes in Hcode.
  unfold on_load_failed. unfold_m. rewrite Hcode.
  destruct (network_available env); cbn; eexists; repeat split.
Qed.

Lemma load_failed_page_witness :
  exists args,
    run (on_load_failed "http://a/" 2) (with_network true sample_env) sample_view
    = MkOut (Ret true) sample_view
        [LoadHtml (error_html sample_env) args;
         FileDelete "/cache/preview"; FileDelete "/cache/start"]
    /\ args !! 1%nat = Some "button {  }"
    /\ args !! 2%nat = Some "load_uri('http://a/')".
Proof.
  destruct (load_failed_page (with_network true sample_env) sample_view "http://a/" 2)
    as (args & Hrun & _ & Hcss & Hretry).
  - simpl. lia.
  - exists args. split; [exact Hrun |]. split; [exact Hcss | exact Hretry].
Defined.

(** ** The TLS override: which certificate, for whom *)

Lemma load_uri_no_trust (env : Env) (w : WebView) (uri : string)
    (c : Certificate) (host : string) :
  ~ In (AllowTlsCertificateForHost c host) (log (run (load_uri uri) env w)).
Proof.
  unfold load_uri, py_urlparse. unfold_m. cbn.
  crush_branches; cbn; intuition discriminate.
Qed.

Lemma on_accept_scheme_trust (env : Env) (w : WebView) (request_uri : string)
    (c : Certificate) (host : string) :
  In (AllowTlsCertificateForHost c host)
    (log (run (on_accept_scheme request_uri) env w)) ->
  bad_tls w = Some c
  /\ exists parsed, urlparse request_uri = Some parsed /\ host = netloc parsed.
Proof.
  unfold on_accept_scheme, py_urlparse. rewrite run_get_bind.
  destruct (bad_tls w) as [cert |]; [| intros []].
  destruct (urlparse request_uri) as [parsed |]; unfold_m; cbn; [| intros []].
  pose proof (load_uri_no_trust env w ("https://" ++ netloc parsed ++ path parsed)
                c host) as Hno.
  unfold run in Hno.
  destruct (load_uri _ env w) as [r w1 l1]; cbn in *.
  intros [[= <- <-] | Hin]; [eauto | contradiction].
Qed.

Lemma handle_trust (env : Env) (w : WebView) (ev : Event)
    (c : Certificate) (host : string) :
  In (AllowTlsCertificateForHost c host) (log (run (handle ev) env w)) ->
  bad_tls w = Some c
  /\ exists request_uri parsed,
      ev = AcceptScheme request_uri
      /\ urlparse request_uri = Some parsed /\ host = netloc parsed.
Proof.
  assert (Hvoid : forall A (m : M A), log (run (void m) env w) = log (run m env w)).
  { intros A m. apply (void_view_log m tt env w). }
  destruct ev as [uri | uri | key value | | [uri | resource] | | request_uri | | name
                 | event | uri code | uri certificate errors | decision decision_type];
    cbn [handle run_callback]; rewrite ?Hvoid.
  - intros Hin. now apply load_uri_no_trust in Hin.
  - intros [].
  - unfold set_setting, set_system_fonts. unfold_m.
    destruct (String.eqb key "use-system-fonts"); cbn;
      [destruct (system_fonts env) as [[? ?] ?] |]; intros [].
  - unfold update_zoom_level. unfold_m. crush_branches; cbn; intuition discriminate.
  - unfold check_for_network. rewrite run_ask_bind.
    destruct (network_available env); [| intros []].
    destruct (void_view_log (B := option bool) (load_uri uri) None env w) as [_ ->].
    intros Hin. now apply load_uri_no_trust in Hin.
  - unfold_m. cbn. intuition discriminate.
  - intros [].
  - intros Hin. destruct (on_accept_scheme_trust env w request_uri c host Hin)
      as (Hcert & parsed & Hparse & Hhost). eauto 6.
  - unfold on_uri_changed. unfold_m. crush_branches; intros [].
  - unfold on_title_changed. unfold_m. crush_branches; cbn; intuition discriminate.
  - unfold on_load_changed, py_urlparse, set_setting, update_zoom_level. unfold_m.
    destruct (urlparse (get_uri env)) as [parsed |]; [| intros []].
    destruct event; cbn; crush_branches; unfold_m; cbn; crush_branches; cbn;
      intuition discriminate.
  - unfold on_load_failed. unfold_m. crush_branches; cbn; intuition discriminate.
  - unfold on_load_failed_tls. unfold_m. cbn. intuition discriminate.
  - unfold on_decide_policy, py_urlparse. unfold_m.
    crush_branches; cbn; intuition discriminate.
Qed.

(** X13.  There is one pending certificate: a second TLS failure replaces
    the certificate of the first, and accepting afterwards registers the
    second certificate and no other. *)
Theorem tls_failure_overwrites_certificate
    (env : Env) (w : WebView) (uri1 uri2 request_uri : string)
    (c1 c2 : Certificate) (errors1 errors2 : Z) :
  let w1 := view (run (on_load_failed_tls uri1 c1 errors1) env w) in
  let w2 := view (run (on_load_failed_tls uri2 c2 errors2) env w1) in
  bad_tls w2 = Some c2
  /\ forall c host,
      In (AllowTlsCertificateForHost c host)
        (log (run (on_accept_scheme request_uri) env w2)) ->
      c = c2.
Proof.
  intros w1 w2.
  assert (Hpending : bad_tls w2 = Some c2) by reflexivity.
  split; [exact Hpending |].
  intros c host Hin.
  destruct (on_accept_scheme_trust _ _ _ _ _ Hin) as [Hcert _].
  congruence.
Qed.

Lemma tls_failure_overwrites_certificate_witness :
  bad_tls
    (view (run (on_load_failed_tls "https://b.example/" (Cert "second") 2) sample_env
             (view (run (on_load_failed_tls "https://a.example/" (Cert "first") 8)
                      sample_env sample_view))))
  = Some (Cert "second")
  /\ Cert "second" = Cert "second".
Proof.
  destruct (tls_failure_overwrites_certificate sample_env sample_view
              "https://a.example/" "https://b.example/" "accept://b.example/"
              (Cert "first") (Cert "second") 8 2) as [Hpending Honly].
  split; [exact Hpending |].
  apply (Honly (Cert "second") "b.example").
  vm_compute. left. reflexivity.
Defined.

Lemma effects_trust (evs : list (Env * Event)) (w : WebView)
    (c : Certificate) (host : string) :
  In (AllowTlsCertificateForHost c host) (effects_of evs w) ->
  bad_tls w = Some c
  \/ exists env uri errors, In (env, LoadFailedTls uri c errors) evs.
Proof.
  revert w. induction evs as [| [env ev] evs IH]; intros w; cbn [effects_of];
    [intros [] |].
  intros Hin. apply in_app_or in Hin as [Hnow | Hlater].
  - left. now apply (handle_trust env w ev c host).
  - destruct (IH _ Hlater) as [Hstep | (env' & uri & errors & Hin)].
    + destruct (handle_bad_tls env w ev c Hstep) as [Hw | (uri & errors & ->)];
        [auto | right; exists env, uri, errors; now left].
    + right. exists env', uri, errors. now right.
Qed.

(** X14.  In the whole life of a view, whatever the events, a certificate
    is registered as trusted only if the engine rejected that very
    certificate in an earlier TLS failure of this view; and it is
    registered by the accept handler only, for the network location named
    in the accept URI. *)
Theorem only_rejected_certificates_are_trusted
    (env0 : Env) (related : option RelatedView) (evs : list (Env * Event))
    (c : Certificate) (host : string) :
  In (AllowTlsCertificateForHost c host) (effects_of evs (init env0 related)) ->
  (exists env uri errors, In (env, LoadFailedTls uri c errors) evs)
  /\ (exists env request_uri parsed,
         In (env, AcceptScheme request_uri) evs
         /\ urlparse request_uri = Some parsed /\ host = netloc parsed).
Proof.
  intros Hin. split.
  - destruct (effects_trust evs _ c host Hin) as [Hinit | Hfail];
      [discriminate Hinit | exact Hfail].
  - revert Hin. generalize (init env0 related).
    induction evs as [| [env ev] evs IH]; intros w; cbn [effects_of];
      [intros [] |].
    intros Hin. apply in_app_or in Hin as [Hnow | Hlater].
    + destruct (handle_trust env w ev c host Hnow)
        as (_ & request_uri & parsed & -> & Hparse & Hhost).
      exists env, request_uri, parsed. split; [now left | auto].
    + destruct (IH _ Hlater) as (env' & request_uri & parsed & Hev & Hrest).
      exists env', request_uri, parsed. split; [now right | exact Hrest].
Qed.

Lemma only_rejected_certificates_are_trusted_witness :
  exists env uri errors,
    In (env, LoadFailedTls uri sample_cert errors)
      [(sample_env, LoadFailedTls "https://example.com/a" sample_cert 8);
       (sample_env, AcceptScheme "accept://example.com/a")].
Proof.
  apply (only_rejected_certificates_are_trusted sample_env None
           [(sample_env, LoadFailedTls "https://example.com/a" sample_cert 8);
            (sample_env, AcceptScheme "accept://example.com/a")]
           sample_cert "example.com").
  vm_compute. right. left. reflexivity.
Defined.

(** ** The internal scheme *)

Lemma replace_internal (rest : string) :
  occurs "internal:/" rest = false ->
  replace "internal:/" "resource:/" ("internal:/" ++ rest) = "resource:/" ++ rest.
Proof.
  intros Hno. unfold replace. norm_str. cbn.
  replace (String.prefix "" rest) with true by now destruct rest.
  now rewrite (replace_absent _ _ _ Hno).
Qed.

(** X15.  The internal scheme serves bundled resources: [internal:/...] is
    answered with the file [resource:/...], as an SVG image.  The icon that
    each error page names is therefore read from the application's
    resources: the information icon or the offline icon for a load failure,
    according to the network, and the warning icon for a TLS failure. *)
Theorem internal_scheme_serves_resources
    (env : Env) (w : WebView) (uri : string) :
  (forall rest,
      occurs "internal:/" rest = false ->
      on_internal_scheme ("internal:/" ++ rest) = ("resource:/" ++ rest, "image/svg+xml"))
  /\ (forall code,
         In code [2; 4; 44]%Z ->
         exists template args rest icon,
           log (run (on_load_failed uri code) env w) = LoadHtml template args :: rest
           /\ args !! 3%nat = Some icon
           /\ on_internal_scheme icon
              = ("resource:///org/gnome/Eolie/"
                 ++ (if network_available env
                     then "dialog-information-symbolic.svg"
                     else "network-offline-symbolic.svg"),
                 "image/svg+xml"))
  /\ (forall certificate errors,
         exists template args icon,
           log (run (on_load_failed_tls uri certificate errors) env w)
           = [LoadHtml template args]
           /\ args !! 3%nat = Some icon
           /\ on_internal_scheme icon
              = ("resource:///org/gnome/Eolie/dialog-warning-symbolic.svg",
                 "image/svg+xml")).
Proof.
  split; [| split].
  - intros rest Hno. unfold on_internal_scheme. now rewrite (replace_internal rest Hno).
  - intros code Hcode. apply in_codes in Hcode.
    unfold on_load_failed. unfold_m. rewrite Hcode.
    destruct (network_available env); cbn; do 4 eexists; repeat split.
  - intros certificate errors. do 3 eexists. repeat split.
Qed.

Lemma internal_scheme_serves_resources_witness :
  on_internal_scheme "internal:///org/gnome/Eolie/x.svg"
  = ("resource:///org/gnome/Eolie/x.svg", "image/svg+xml").
Proof.
  apply (proj1 (internal_scheme_serves_resources sample_env sample_view "http://a/")
           "//org/gnome/Eolie/x.svg").
  reflexivity.
Defined.

(** ** Permission requests *)

(** X16.  Notifications are always allowed, and any request that is
    neither a geolocation nor a notification request is left unanswered.
    Geolocation is denied in a private view and after insecure content was
    detected, and allowed otherwise; a load of an http, https, file or
    populars URI through [load_uri] forgets the insecure content.  On a
    fresh view, where no method has assigned the insecure-content flag yet,
    a geolocation request raises [AttributeError]. *)
Theorem geolocation_permission
    (env : Env) (w : WebView) (private : bool) :
  on_permission_request private NotificationPermissionRequest w = Ret (Some Allow)
  /\ on_permission_request private OtherPermissionRequest w = Ret None
  /\ on_permission_request private GeolocationPermissionRequest
       (view (run on_insecure_content_detected env w)) = Ret (Some Deny)
  /\ (forall uri parsed,
         urlparse uri = Some parsed ->
         In (scheme parsed) ["http"; "https"; "file"; "populars"] ->
         on_permission_request private GeolocationPermissionRequest
           (view (run (load_uri uri) env
                    (view (run on_insecure_content_detected env w))))
         = Ret (Some (if private then Deny else Allow)))
  /\ (forall related,
         on_permission_request private GeolocationPermissionRequest
           (init env related) = Raise AttributeError).
Proof.
  repeat split.
  - intros uri parsed Hparse Hscheme.
    rewrite (load_uri_resets env _ uri parsed Hparse Hscheme). cbn.
    now destruct private.
Qed.

Lemma geolocation_permission_witness :
  on_permission_request false GeolocationPermissionRequest
    (view (run (load_uri "https://example.com/") sample_env
             (view (run on_insecure_content_detected sample_env sample_view))))
  = Ret (Some Allow).
Proof.
  destruct (geolocation_permission sample_env sample_view false)
    as (_ & _ & _ & Hload & _).
  apply (Hload "https://example.com/"
           {| scheme := "https"; netloc := "example.com"; path := "/";
              params := ""; query := ""; fragment := "" |}).
  - reflexivity.
  - simpl. auto.
Defined.

(** ** The start page *)

Lemma fold_bookmarks (l : list (Z * string * string)) (acc : list (string * string)) :
  fold_left (fun items '(bookmark_id, title, uri) => (items ++ [(title, uri)])%list) l acc
  = (acc ++ map (fun b => (b.1.2, b.2)) l)%list.
Proof.
  revert acc. induction l as [| [[id title] uri] l IH]; intros acc; cbn.
  - now rewrite app_nil_r.
  - rewrite IH, <- app_assoc. reflexivity.
Qed.

Lemma fold_history (uris : list string) (l acc : list (string * string)) :
  fold_left (fun items '(title, uri) =>
               if negb (in_list uri uris)
               then (items ++ [(title, uri)])%list else items) l acc
  = (acc ++ List.filter (fun h => negb (in_list h.2 uris)) l)%list.
Proof.
  revert acc. induction l as [| [title uri] l IH]; intros acc; cbn.
  - now rewrite app_nil_r.
  - rewrite IH. destruct (in_list uri uris); cbn; [reflexivity |].
    now rewrite <- app_assoc.
Qed.

Lemma in_list_In (s : string) (l : list string) : in_list s l = true <-> In s l.
Proof.
  unfold in_list. rewrite existsb_exists. split.
  - intros (x & Hx & Heq). apply String.eqb_eq in Heq. now subst.
  - intros H. exists s. split; [assumption | apply String.eqb_refl].
Qed.

(** X17.  The start page lists the bookmarks' popular pages first, all of
    them and in their order, then the history entries whose URI is not
    among those bookmarks, in their order.  If the bookmarks return at most
    the 20 entries asked for and the history at most the number asked for,
    the page lists at most 30 entries; and no history entry repeats the URI
    of a bookmark. *)
Theorem populars_items_spec (st : Stores) :
  let bookmarks := map (fun b => (b.1.2, b.2)) (get_populars st 20) in
  let more := (30 - Z.of_nat (length bookmarks))%Z in
  let history :=
    List.filter (fun h => negb (in_list h.2 (map snd bookmarks)))
      (history_search st "" more) in
  populars_items st
  = (bookmarks ++ (if (more >? 0)%Z then history else []))%list
  /\ (forall h, In h history -> ~ In h.2 (map snd bookmarks))
  /\ ((length (get_populars st 20) <= 20)%nat ->
      (Z.of_nat (length (history_search st "" more)) <= more)%Z ->
      (length (populars_items st) <= 30)%nat).
Proof.
  intros bookmarks more history.
  assert (Hitems : populars_items st
                   = (bookmarks ++ (if (more >? 0)%Z then history else []))%list).
  { unfold populars_items. rewrite fold_bookmarks. cbn [app].
    fold bookmarks. fold more.
    destruct (more >? 0)%Z; [| now rewrite app_nil_r].
    now rewrite fold_history. }
  split; [exact Hitems |]. split.
  - intros h Hin. apply filter_In in Hin as [_ Hnot].
    intros Hdup. apply in_list_In in Hdup. rewrite Hdup in Hnot. discriminate Hnot.
  - intros Hbookmarks Hhistory. rewrite Hitems, length_app.
    assert (Hlen : length bookmarks = length (get_populars st 20))
      by apply length_map.
    destruct (more >? 0)%Z eqn:Hmore; cbn [length]; [| lia].
    pose proof (filter_length_le (fun h => negb (in_list h.2 (map snd bookmarks)))
                  (history_search st "" more)) as Hfilter.
    fold history in Hfilter. unfold more in *. lia.
Qed.

Lemma populars_items_spec_witness :
  let st := {| get_populars := fun _ => [(1%Z, "A", "https://a.example/")];
               history_search := fun _ _ => [("A again", "https://a.example/");
                                             ("B", "https://b.example/")];
               query_exists := fun _ => true;
               start_html := "<h1>@TITLE@</h1>"; end_html := "</html>" |} in
  (length (populars_items st) <= 30)%nat.
Proof.
  intros st.
  apply (populars_items_spec st).
  - simpl. lia.
  - simpl. lia.
Defined.

Lemma string_app_assoc (a b c : string) : (a ++ b) ++ c = a ++ (b ++ c).
Proof.
  induction a as [| x a IH]; norm_str; [reflexivity | now rewrite IH].
Qed.

Lemma append_nil_r (a : string) : a ++ "" = a.
Proof. induction a as [| x a IH]; norm_str; [reflexivity | now rewrite IH]. Qed.

Lemma fold_children (env : Env) (st : Stores) (items : list (string * string))
    (acc : string) :
  fold_left (fun html_start '(title, uri) =>
               let path := art_get_path env uri "start" in
               if negb (query_exists st path) then html_start
               else html_start ++ populars_child title uri path) items acc
  = acc ++ children_html env
             (List.filter (fun i => query_exists st (art_get_path env i.2 "start"))
                items).
Proof.
  revert acc. induction items as [| [title uri] items IH]; intros acc;
    cbn [fold_left List.filter children_html snd].
  - now rewrite append_nil_r.
  - rewrite IH. destruct (query_exists st (art_get_path env uri "start"));
      cbn [negb children_html]; [| reflexivity].
    now rewrite string_app_assoc.
Qed.

(** X18.  The start page is the first half of the template, with its title
    placeholder replaced, followed by one child per listed item that has a
    thumbnail file, in the order of the list, followed by the second half.
    Items without a thumbnail are left out; without any thumbnail the page
    has no child at all. *)
Theorem populars_page_spec (env : Env) (st : Stores) :
  on_populars_scheme env st
  = (replace "@TITLE@" (gettext env "Popular pages") (start_html st)
     ++ children_html env
          (List.filter (fun i => query_exists st (art_get_path env i.2 "start"))
             (populars_items st))
     ++ end_html st,
     "text/html")
  /\ ((forall file, query_exists st file = false) ->
      on_populars_scheme env st
      = (replace "@TITLE@" (gettext env "Popular pages") (start_html st)
         ++ end_html st, "text/html")).
Proof.
  assert (Hpage : on_populars_scheme env st
                  = (replace "@TITLE@" (gettext env "Popular pages") (start_html st)
                     ++ children_html env
                          (List.filter
                             (fun i => query_exists st (art_get_path env i.2 "start"))
                             (populars_items st))
                     ++ end_html st, "text/html")).
  { unfold on_populars_scheme. cbn zeta. rewrite fold_children.
    now rewrite string_app_assoc. }
  split; [exact Hpage |].
  intros Hnone. rewrite Hpage.
  replace (List.filter _ (populars_items st)) with (@nil (string * string)).
  - cbn [children_html]. now norm_str.
  - symmetry. clear Hpage.
    induction (populars_items st) as [| i items IH]; cbn; [reflexivity |].
    now rewrite Hnone.
Qed.

Lemma populars_page_spec_witness :
  let st := {| get_populars := fun _ => [(1%Z, "A", "https://a.example/")];
               history_search := fun _ _ => [("B", "https://b.example/")];
               query_exists := fun _ => false;
               start_html := "<h1>@TITLE@</h1>"; end_html := "</html>" |} in
  on_populars_scheme sample_env st = ("<h1>Popular pages</h1></html>", "text/html").
Proof.
  intros st.
  apply (populars_page_spec sample_env st).
  reflexivity.
Defined.

(** ** The guessed selection *)

Lemma option_string_eqb_eq (a b : option string) :
  option_string_eqb a b = true <-> a = b.
Proof.
  destruct a as [a |], b as [b |]; cbn; try (split; congruence).
  rewrite String.eqb_eq. split; congruence.
Qed.

(** X19.  A press followed by a release leaves as selection the clipboard
    text found at the release if it differs from the one found at the press,
    and the empty string if it is the same (or if the clipboard then holds
    no text): a click that selects nothing clears the selection. *)
Theorem selection_after_click
    (s : Selection) (at_press at_release : option string) :
  let s' := on_button_release_event at_release (on_button_press_event at_press s) in
  (at_release = at_press -> selection s' = "")
  /\ (at_release <> at_press ->
      selection s' = match at_release with Some text => text | None => "" end)
  /\ initial_selection s' = Some "".
Proof.
  cbn. destruct (option_string_eqb at_release at_press) eqn:Heq; cbn.
  - apply option_string_eqb_eq in Heq. split; [auto |]. split; [| reflexivity].
    intros Hne. contradiction.
  - assert (at_release <> at_press).
    { intros H. apply option_string_eqb_eq in H. congruence. }
    split; [intros Hsame; contradiction |]. split; [auto | reflexivity].
Qed.

Lemma selection_after_click_witness :
  selection (on_button_release_event (Some "new")
               (on_button_press_event (Some "old") init_selection)) = "new"
  /\ selection (on_button_release_event (Some "old")
                  (on_button_press_event (Some "old")
                     {| selection := "kept"; initial_selection := Some "" |})) = "".
Proof.
  split.
  - apply (selection_after_click init_selection (Some "old") (Some "new")).
    discriminate.
  - apply (selection_after_click {| selection := "kept"; initial_selection := Some "" |}
             (Some "old") (Some "old")).
    reflexivity.
Defined.

(** ** Scrolling *)

Lemma init_smooth_scrolling (env : Env) (related : option RelatedView) :
  smooth_scrolling_tracks MOUSE (init env related).
Proof.
  unfold smooth_scrolling_tracks, init, init_settings. cbn [settings foldl fst snd].
  now rewrite !lookup_insert_ne, lookup_insert_eq by discriminate.
Qed.

Lemma on_scroll_event_tracks (event : EventScroll) (input_source : InputSource)
    (w : WebView) :
  smooth_scrolling_tracks input_source w ->
  smooth_scrolling_tracks (on_scroll_event event input_source w).1.2
    (on_scroll_event event input_source w).2
  /\ (on_scroll_event event input_source w).1.2 = source event.
Proof.
  intros Htracks. unfold on_scroll_event, smooth_scrolling_tracks in *.
  destruct event as [src dx dy]; cbn.
  destruct src, input_source; cbn in *; split; auto;
    apply lookup_insert_eq.
Qed.

(** X20.  The engine's smooth-scrolling setting follows the device that
    scrolls: on a fresh view it is off and the remembered source is the
    mouse; after any series of scroll events it is on exactly when the last
    event did not come from a mouse, and the remembered source is that of
    the last event.  A mouse event has both its deltas doubled, any other
    event is passed on as it is. *)
Theorem smooth_scrolling_follows_device
    (env : Env) (related : option RelatedView) (events : list EventScroll)
    (event : EventScroll) (input_source : InputSource) (w : WebView) :
  smooth_scrolling_tracks (scrolls events MOUSE (init env related)).1
    (scrolls events MOUSE (init env related)).2
  /\ (scrolls (events ++ [event]) MOUSE (init env related)).1 = source event
  /\ (on_scroll_event event input_source w).1.1
     = (if InputSource_eqb (source event) MOUSE
        then {| source := source event;
                delta_x := (delta_x event * 2)%Q;
                delta_y := (delta_y event * 2)%Q |}
        else event).
Proof.
  assert (Hall : forall evs src v,
             smooth_scrolling_tracks src v ->
             smooth_scrolling_tracks (scrolls evs src v).1 (scrolls evs src v).2).
  { induction evs as [| e evs IH]; intros src v Htracks; cbn [scrolls]; [exact Htracks |].
    destruct (on_scroll_event_tracks e src v Htracks) as [Hstep _].
    destruct (on_scroll_event e src v) as [[e' src'] v']. now apply IH. }
  assert (Hlast : forall evs src v, (scrolls (evs ++ [event]) src v).1 = source event).
  { induction evs as [| e evs IH]; intros src v; cbn [scrolls app].
    - unfold on_scroll_event.
      destruct event as [esrc dx dy]; cbn. destruct esrc, src; reflexivity.
    - destruct (on_scroll_event e src v) as [[e' src'] v']. apply IH. }
  split; [apply Hall, init_smooth_scrolling |]. split; [apply Hlast |].
  unfold on_scroll_event. destruct event as [esrc dx dy]; cbn.
  destruct esrc, input_source; reflexivity.
Qed.

(** ** Forms *)

(** X21.  A private view never asks for the forms of a page.  When the
    answer to that question arrives, the form is submitted exactly when a
    user name and a password were both found and the page URI parses; then
    [save-password] is emitted first, with the network location of the page.
    Nothing else is ever emitted, and the handler never raises. *)
Theorem forms_are_saved_then_submitted
    (env : Env) (page_id : Z) (result : option (string * string)) :
  on_submit_form true page_id = []
  /\ (In RequestSubmit (on_get_forms env result)
      <-> exists username password parsed,
           result = Some (username, password)
           /\ username <> "" /\ password <> ""
           /\ urlparse (get_uri env) = Some parsed)
  /\ (forall username password parsed,
         result = Some (username, password) ->
         username <> "" -> password <> "" ->
         urlparse (get_uri env) = Some parsed ->
         on_get_forms env result
         = [FormEmit (SavePassword username password (netloc parsed));
            RequestSubmit]).
Proof.
  split; [reflexivity |]. split; [split |].
  - unfold on_get_forms.
    destruct result as [[username password] |]; [| cbn; intuition discriminate].
    destruct (String.eqb_spec username ""); [intros [] |].
    destruct (String.eqb_spec password ""); [intros [] |].
    cbn. destruct (urlparse (get_uri env)) as [parsed |];
      [| cbn; intuition discriminate].
    intros _. eauto 10.
  - intros (username & password & parsed & -> & Huser & Hpass & Hparse).
    unfold on_get_forms. apply String.eqb_neq in Huser, Hpass.
    rewrite Huser, Hpass, Hparse. cbn. auto.
  - intros username password parsed -> Huser Hpass Hparse.
    unfold on_get_forms. apply String.eqb_neq in Huser, Hpass.
    now rewrite Huser, Hpass, Hparse.
Qed.

Lemma forms_are_saved_then_submitted_witness :
  on_get_forms sample_env (Some ("alice", "secret"))
  = [FormEmit (SavePassword "alice" "secret" "www.example.com"); RequestSubmit].
Proof.
  destruct (forms_are_saved_then_submitted sample_env 1 (Some ("alice", "secret")))
    as (_ & _ & Hsaved).
  apply (Hsaved "alice" "secret"
           {| scheme := "https"; netloc := "www.example.com"; path := "/a";
              params := ""; query := ""; fragment := "" |}).
  - reflexivity.
  - discriminate.
  - discriminate.
  - reflexivity.
Defined.

(** ** The URI label *)

(** X22.  Setting a new text puts the label at the bottom left, whatever
    its place was: it is aligned to the start and the end, has the class
    [bottom-left] and not [bottom-right].  Setting the text it already shows
    changes nothing, so a label that has moved away from the pointer stays
    where it is.  From the bottom left, the pointer entering moves the
    label to the bottom right, and entering again moves it to the top
    left. *)
Theorem set_text_places_label (l : UriLabel) (text : string) :
  set_text (label_text l) l = l
  /\ set_text text (set_text text l) = set_text text l
  /\ (text <> label_text l ->
      let l1 := set_text text l in
      let l2 := (on_enter_notify l1).1 in
      let l3 := (on_enter_notify l2).1 in
      label_text l1 = text
      /\ halign l1 = Align.START /\ valign l1 = Align.END
      /\ "bottom-left" ∈ style_classes l1 /\ ("bottom-right" ∉ style_classes l1)
      /\ halign l2 = Align.END /\ valign l2 = Align.END
      /\ "bottom-right" ∈ style_classes l2 /\ ("bottom-left" ∉ style_classes l2)
      /\ halign l3 = Align.START /\ valign l3 = Align.START
      /\ "top-left" ∈ style_classes l3 /\ ("bottom-right" ∉ style_classes l3)
      /\ label_text l3 = text).
Proof.
  split; [| split].
  - unfold set_text. now rewrite String.eqb_refl.
  - unfold set_text. destruct (String.eqb text (label_text l)) eqn:Hsame.
    + now rewrite Hsame.
    + cbn. now rewrite String.eqb_refl.
  - intros Hnew. apply String.eqb_neq in Hnew.
    unfold set_text. rewrite Hnew. cbn.
    repeat split; set_solver.
Qed.

Lemma set_text_places_label_witness :
  halign (set_text "https://a.example/" UriLabel_init) = Align.START
  /\ valign (set_text "https://a.example/" UriLabel_init) = Align.END.
Proof.
  destruct (set_text_places_label UriLabel_init "https://a.example/")
    as (_ & _ & Hplaced).
  destruct Hplaced as (_ & Hh & Hv & _); [discriminate |].
  split; [exact Hh | exact Hv].
Defined.

Lemma label_step_classes (op : LabelOp) (l : UriLabel) :
  let l' := label_after [op] l in
  ("urilabel" ∈ style_classes l -> "urilabel" ∈ style_classes l')
  /\ ("top-left" ∈ style_classes l -> "top-left" ∈ style_classes l')
  /\ (~ ("bottom-left" ∈ style_classes l /\ "bottom-right" ∈ style_classes l) ->
      ~ ("bottom-left" ∈ style_classes l' /\ "bottom-right" ∈ style_classes l')).
Proof.
  destruct op as [text |]; cbn.
  - unfold set_text. destruct (String.eqb text (label_text l)); cbn;
      repeat split; set_solver.
  - destruct (Align.eqb (halign l) Align.START); cbn; repeat split; set_solver.
Qed.

(** X23.  Whatever is done to a URI label, it keeps its class [urilabel]
    and never has the classes [bottom-left] and [bottom-right] together.
    The class [top-left], though, is never removed: once the label has been
    at the top it keeps that class, also when a new text puts it back at the
    bottom left. *)
Theorem label_classes_invariant (ops ops' : list LabelOp) :
  let l := label_after ops UriLabel_init in
  "urilabel" ∈ style_classes l
  /\ ~ ("bottom-left" ∈ style_classes l /\ "bottom-right" ∈ style_classes l)
  /\ ("top-left" ∈ style_classes l ->
      "top-left" ∈ style_classes (label_after ops' l)).
Proof.
  assert (Hkeep : forall ops0 l0,
             ("urilabel" ∈ style_classes l0 ->
              "urilabel" ∈ style_classes (label_after ops0 l0))
             /\ ("top-left" ∈ style_classes l0 ->
                 "top-left" ∈ style_classes (label_after ops0 l0))
             /\ (~ ("bottom-left" ∈ style_classes l0
                    /\ "bottom-right" ∈ style_classes l0) ->
                 ~ ("bottom-left" ∈ style_classes (label_after ops0 l0)
                    /\ "bottom-right" ∈ style_classes (label_after ops0 l0)))).
  { induction ops0 as [| op ops0 IH]; intros l0; [cbn; auto |].
    destruct (label_step_classes op l0) as (H1 & H2 & H3).
    destruct op as [text |]; cbn [label_after] in *.
    - destruct (IH (set_text text l0)) as (I1 & I2 & I3). auto.
    - destruct (IH (on_enter_notify l0).1) as (I1 & I2 & I3). auto. }
  intros l. destruct (Hkeep ops UriLabel_init) as (H1 & _ & H3).
  split; [apply H1; cbn; set_solver |].
  split; [apply H3; cbn; set_solver |].
  apply (Hkeep ops' l).
Qed.

Lemma label_classes_invariant_witness :
  "top-left"
  ∈ style_classes
      (label_after [SetText "https://b.example/"]
         (label_after [SetText "https://a.example/"; EnterNotify; EnterNotify]
            UriLabel_init)).
Proof.
  apply (label_classes_invariant
           [SetText "https://a.example/"; EnterNotify; EnterNotify]
           [SetText "https://b.example/"]).
  cbn. set_solver.
Defined.

(** ** The view: read mode and the label under the pointer *)






(** X25.  When the font size can be read, [switch_read_mode] always
    toggles the reading state and touches neither the web view, the label
    nor the parent, so that two calls end where they started.  It enters the
    read mode also without readable content; the page is loaded into the
    reading view only on entering with readable content, with a font 1.3
    times the document font's size and a body two thirds of the view's
    width wide, and titled [None] when the page has no title. *)
Theorem switch_read_mode_toggles
    (env : Env) (allocated_width : Q) (v : View) (size : Z) :
  PyInt.int (PyInt.last2 (system_fonts env).1.2) = Some size ->
  exists v' calls,
    switch_read_mode env allocated_width v = Ret (v', calls)
    /\ reading v' = negb (reading v)
    /\ webview v' = webview v /\ uri_label v' = uri_label v /\ parent v' = parent v
    /\ (exists v'' calls',
           switch_read_mode env allocated_width v' = Ret (v'', calls')
           /\ reading v'' = reading v)
    /\ (forall html,
           In (IdleLoadHtml html) calls <->
           reading v = false
           /\ readable_content (webview v) <> ""
           /\ html = {| reading_font_size := (inject_Z size * (13 # 10))%Q;
                        reading_width := (allocated_width / (15 # 10))%Q;
                        reading_title :=
                          match get_title env with Some t => t | None => "None" end;
                        reading_content := readable_content (webview v) |}).
Proof.
  intros Hsize. unfold switch_read_mode, reading. rewrite Hsize.
  destruct (reading_view v) eqn:Hreading; cbn [negb].
  - eexists _, _. split; [reflexivity |]. cbn [reading_view webview uri_label parent].
    do 4 (split; [reflexivity |]). split.
    + cbn [negb].
      destruct (String.eqb (readable_content (webview v)) ""); cbn [negb];
        eexists _, _; split; reflexivity.
    + intros html. split.
      * intros [Hin | []]. discriminate Hin.
      * intros (Hfalse & _). discriminate Hfalse.
  - destruct (String.eqb_spec (readable_content (webview v)) "") as [Hempty | Hcontent];
      cbn [negb].
    + eexists _, _. split; [reflexivity |]. cbn [reading_view webview uri_label parent].
      do 4 (split; [reflexivity |]). split.
      * cbn [negb]. eexists _, _. split; reflexivity.
      * intros html. split.
        -- intros [Hin | [Hin | [Hin | []]]]; discriminate Hin.
        -- intros (_ & Hcontent & _). contradiction.
    + eexists _, _. split; [reflexivity |]. cbn [reading_view webview uri_label parent].
      do 4 (split; [reflexivity |]). split.
      * cbn [negb]. eexists _, _. split; reflexivity.
      * intros html. split.
        -- intros [Hin | [Hin | [Hin | [Hin | []]]]]; try discriminate Hin.
           injection Hin as <-. auto.
        -- intros (_ & _ & ->). cbn. auto.
Qed.

Lemma switch_read_mode_toggles_witness :
  exists v' calls,
    switch_read_mode sample_env 600 (View_init None sample_view) = Ret (v', calls)
    /\ reading v' = true.
Proof.
  destruct (switch_read_mode_toggles sample_env 600 (View_init None sample_view) 11)
    as (v' & calls & Hrun & Hreading & _).
  - reflexivity.
  - exists v', calls. split; [exact Hrun | exact Hreading].
Defined.

(** X26.  Hovering a link shows the label with the link's URI; leaving the
    link hides the label and keeps its text.  Hovering again the link whose
    URI the label already shows (after the label moved away from the
    pointer, say) leaves the label where it is; hovering another link puts
    it back at the bottom left. *)
Theorem hovered_link_label (v : View) (uri : string) :
  on_mouse_target_changed None v = (v, [UriLabelHide])
  /\ label_text (uri_label (on_mouse_target_changed (Some uri) v).1) = uri
  /\ (on_mouse_target_changed (Some uri) v).2 = [UriLabelShow]
  /\ (label_text (uri_label v) = uri ->
      on_mouse_target_changed (Some uri) v = (v, [UriLabelShow]))
  /\ (label_text (uri_label v) <> uri ->
      halign (uri_label (on_mouse_target_changed (Some uri) v).1) = Align.START
      /\ valign (uri_label (on_mouse_target_changed (Some uri) v).1) = Align.END).
Proof.
  split; [reflexivity |]. split; [| split; [reflexivity | split]].
  - cbn. unfold set_text.
    destruct (String.eqb_spec uri (label_text (uri_label v))); cbn; auto.
  - intros <-. cbn. unfold set_text. rewrite String.eqb_refl. now destruct v.
  - intros Hother. cbn. unfold set_text.
    destruct (String.eqb_spec uri (label_text (uri_label v))) as [-> | _];
      [contradiction | cbn; auto].
Qed.

Lemma hovered_link_label_witness :
  let moved :=
    {| reading_view := false; in_read_mode := None; parent := None;
       uri_label := (on_enter_notify (set_text "https://a.example/" UriLabel_init)).1;
       webview := sample_view |} in
  on_mouse_target_changed (Some "https://a.example/") moved = (moved, [UriLabelShow])
  /\ halign (uri_label moved) = Align.END.
Proof.
  intros moved. split; [| reflexivity].
  apply (hovered_link_label moved "https://a.example/").
  reflexivity.
Defined.
